(** * Verification of the shopify-report pipeline (order_puller.py, Cleaner.py, Reporter.py)

    Shallow embedding of the pull -> clean -> report pipeline.  Python and
    pandas values are modelled as they appear at run time: decoded JSON values,
    the float NaN that pandas puts in a cell whose key is missing, and IEEE
    floats idealised as rationals with an explicit NaN.  Library functions
    whose internals the repository does not define (float() on strings,
    pd.to_numeric on strings, pd.to_datetime, tz_convert, date ordering,
    json.load, DataFrame.to_csv, the HTTP client) are fields of the class
    [PyLib]; every result below holds for every instance. *)

From Stdlib Require Import QArith Qround Permutation Sorted.
From stdpp Require Import base list gmap strings pretty.

Open Scope list_scope.

(* ------------------------------------------------------------------ *)
(** ** Decoded JSON values (Python objects produced by json.load) *)

#[local] Set Warnings "-register-all".

Inductive json : Type :=
| JNull
| JBool (b : bool)
| JInt (z : Z)
| JFloat (q : Q)
| JStr (s : string)
| JList (l : list json)
| JObj (kv : list (string * json)).

(** [d.get(k)] on a decoded JSON object: [None] when the key is absent. *)
Fixpoint py_get (kv : list (string * json)) (k : string) : option json :=
  match kv with
  | [] => None
  | (k', v) :: t => if String.eqb k' k then Some v else py_get t k
  end.

(** A cell of a pandas object column: a Python value, or the float NaN that
    pandas writes for a key missing in a record. *)
Inductive cell : Type :=
| CJ (j : json)
| CNaN.

(** Python truthiness ([bool(x)]). NaN is truthy. *)
Definition json_truthy (j : json) : bool :=
  match j with
  | JNull => false
  | JBool b => b
  | JInt z => negb (Z.eqb z 0)
  | JFloat q => negb (Qeq_bool q 0)
  | JStr s => negb (String.eqb s "")
  | JList l => negb (Nat.eqb (length l) 0)
  | JObj kv => negb (Nat.eqb (length kv) 0)
  end.

Definition cell_truthy (c : cell) : bool :=
  match c with CJ j => json_truthy j | CNaN => true end.

(** pandas [isna]: None and NaN. *)
Definition cell_isna (c : cell) : bool :=
  match c with CJ JNull | CNaN => true | _ => false end.

(** Python floats: a finite value or NaN (no rounding is modelled). *)
Inductive flt : Type :=
| Fin (q : Q)
| NaN.

Definition fadd (a b : flt) : flt :=
  match a, b with Fin x, Fin y => Fin (x + y) | _, _ => NaN end.
Definition fsub (a b : flt) : flt :=
  match a, b with Fin x, Fin y => Fin (x - y) | _, _ => NaN end.
Definition fmul (a b : flt) : flt :=
  match a, b with Fin x, Fin y => Fin (x * y) | _, _ => NaN end.

(** pandas [Series.sum()] (skipna): NaN entries are skipped. *)
Fixpoint fsum_skipna (l : list flt) : Q :=
  match l with
  | [] => 0
  | Fin q :: t => q + fsum_skipna t
  | NaN :: t => fsum_skipna t
  end.

(* ------------------------------------------------------------------ *)
(** ** Library behaviour the repository relies on *)

Class PyLib := {
  (** [float(s)] on a str: [None] when it raises ValueError *)
  py_float_str : string -> option flt;
  (** [pd.to_numeric(s, errors="coerce")] on a str: [None] is NaN *)
  to_numeric_str : string -> option Q;
  (** the timestamp and date types of pandas *)
  Timestamp : Type;
  Date : Type;
  (** [pd.to_datetime(x, utc=True, errors="coerce")] on a non-missing value *)
  to_datetime_utc : json -> option Timestamp;
  (** [dt.tz_convert(ZoneInfo(tz))]: [None] when it raises *)
  tz_convert : Timestamp -> string -> option Timestamp;
  (** [.dt.date] *)
  ts_date : Timestamp -> Date;
  (** ordering of dates used by sort_values and groupby *)
  date_lt : Date -> Date -> bool;
  date_eqb : Date -> Date -> bool;
  (** whether the [created_at_local] column gets a datetimelike dtype, so that
      [.dt] is available (pandas raises AttributeError otherwise) *)
  dt_ok : list (option Timestamp) -> bool
}.

(* ------------------------------------------------------------------ *)
(** ** Cleaner.py: money helpers *)

Section Money.
Context `{L : PyLib}.

(** [parse_money]: [float(x)], 0.0 on any exception.  [float(nan)] is nan. *)
Definition parse_money (c : cell) : flt :=
  match c with
  | CNaN => NaN
  | CJ JNull => Fin 0
  | CJ (JBool b) => Fin (if b then 1 else 0)
  | CJ (JInt z) => Fin (inject_Z z)
  | CJ (JFloat q) => Fin q
  | CJ (JStr s) => match py_float_str s with Some f => f | None => Fin 0 end
  | CJ (JList _) | CJ (JObj _) => Fin 0
  end.

(** [s.get("price")] for an element [s] of shipping_lines; elements that are
    not dicts raise AttributeError, which [sum_shipping] does not catch. *)
Definition get_field (j : json) (k : string) : option cell :=
  match j with
  | JObj kv => Some (CJ (default JNull (py_get kv k)))
  | _ => None
  end.

(** [sum_shipping]: [sum(...)] adds left to right from 0; [None] is the
    uncaught AttributeError. *)
Definition sum_shipping (c : cell) : option flt :=
  match c with
  | CJ (JList l) =>
      fold_left (fun acc s =>
        match acc, get_field s "price" with
        | Some a, Some p => Some (fadd a (parse_money p))
        | _, _ => None
        end) l (Some (Fin 0))
  | _ => Some (Fin 0)
  end.

(** [ref.get("transactions") or []] *)
Definition transactions_of (ref : json) : option (list json) :=
  match ref with
  | JObj kv =>
      let ts := default JNull (py_get kv "transactions") in
      if json_truthy ts then
        match ts with JList l => Some l | _ => None end
      else Some []
  | _ => None
  end.

(** One transaction: [None] raises, [Some None] is skipped, [Some (Some v)]
    is added ([t.get("kind") == "refund"]). *)
Definition refund_of_txn (t : json) : option (option flt) :=
  match t with
  | JObj kv =>
      match py_get kv "kind" with
      | Some (JStr k) =>
          if String.eqb k "refund"
          then Some (Some (parse_money (CJ (default JNull (py_get kv "amount")))))
          else Some None
      | _ => Some None
      end
  | _ => None
  end.

Definition add_txn (acc : option flt) (t : json) : option flt :=
  match acc, refund_of_txn t with
  | Some a, Some (Some v) => Some (fadd a v)
  | Some a, Some None => Some a
  | _, _ => None
  end.

(** [sum_refunds]: [total = 0.0; total += ...] over every transaction of
    every refund entry; [None] is an uncaught exception. *)
Definition sum_refunds (c : cell) : option flt :=
  match c with
  | CJ (JList refs) =>
      fold_left (fun acc ref =>
        match acc, transactions_of ref with
        | Some a, Some ts => fold_left add_txn ts (Some a)
        | _, _ => None
        end) refs (Some (Fin 0))
  | _ => Some (Fin 0)
  end.

End Money.

(* ------------------------------------------------------------------ *)
(** ** pandas.json_normalize and DataFrame columns *)

Definition join_key (pre k : string) : string :=
  if String.eqb pre "" then k else String.append pre (String.append "." k).

(** [_normalise_json]: nested objects expand to dot paths; an empty nested
    object contributes nothing. *)
Fixpoint norm_nested (key : string) (j : json) {struct j} : list (string * json) :=
  match j with
  | JObj kv =>
      (fix go (kv : list (string * json)) : list (string * json) :=
         match kv with
         | [] => []
         | (k, v) :: t => norm_nested (join_key key k) v ++ go t
         end) kv
  | _ => [(key, j)]
  end.

(** [d[k] = v] on a Python dict kept as an association list in insertion
    order. *)
Definition dict_set (d : list (string * json)) (kv : string * json) : list (string * json) :=
  let '(k, v) := kv in
  if existsb (fun p => String.eqb p.1 k) d
  then map (fun p => if String.eqb p.1 k then (k, v) else p) d
  else d ++ [(k, v)].

Definition is_obj (j : json) : bool := match j with JObj _ => true | _ => false end.

(** [_normalise_json_ordered]: [{**top_dict_, **nested_dict_}]: the
    result starts as [top_dict_] and each entry of [nested_dict_] is then
    set in it, so on a key present in both the nested value wins (in the
    position of the top-level key). *)
Definition normalise_record (kv : list (string * json)) : list (string * json) :=
  let top := List.filter (fun p => negb (is_obj p.2)) kv in
  let nested := fold_left dict_set
                  (flat_map (fun p => if is_obj p.2 then norm_nested p.1 p.2 else []) kv) [] in
  fold_left dict_set nested top.

(** A frame built from records: a column exists when some record has the key. *)
Definition has_col (recs : list (list (string * json))) (k : string) : bool :=
  existsb (fun r => if py_get r k then true else false) recs.

Definition is_num (j : json) : bool :=
  match j with JInt _ | JFloat _ => true | _ => false end.

(** dtype inference: a column whose values are numbers and None becomes
    float64, where None is NaN. *)
Definition numeric_col (recs : list (list (string * json))) (k : string) : bool :=
  existsb (fun r => match py_get r k with Some j => is_num j | None => false end) recs &&
  forallb (fun r => match py_get r k with
                    | Some JNull | None => true
                    | Some j => is_num j end) recs.

Definition df_cell (recs : list (list (string * json))) (k : string)
    (r : list (string * json)) : cell :=
  match py_get r k with
  | None => CNaN
  | Some JNull => if numeric_col recs k then CNaN else CJ JNull
  | Some j => CJ j
  end.

(** [df[k]] after [if c not in cols: df[c] = None] *)
Definition df_col (recs : list (list (string * json))) (k : string) : list cell :=
  if has_col recs k then map (df_cell recs k) recs
  else repeat (CJ JNull) (length recs).

(* ------------------------------------------------------------------ *)
(** ** Hashable keys (groupby, nunique, Series.get) *)

(** Python [==] on hashable decoded values: numbers (and bools) compare
    numerically, strings by content. *)
Inductive pykey : Type :=
| KNum (q : Q)
| KStr (s : string).

Definition key_of_cell (c : cell) : option pykey :=
  match c with
  | CJ (JBool b) => Some (KNum (if b then 1 else 0)%Q)
  | CJ (JInt z) => Some (KNum (inject_Z z))
  | CJ (JFloat q) => Some (KNum q)
  | CJ (JStr s) => Some (KStr s)
  | _ => None
  end.

Definition key_eqb (a b : pykey) : bool :=
  match a, b with
  | KNum x, KNum y => Qeq_bool x y
  | KStr x, KStr y => String.eqb x y
  | _, _ => false
  end.

(** [df.groupby(keys)[vals]]: groups keyed by the non-null keys, values in
    row order; rows with a null key are dropped. *)
Fixpoint group_insert {A} (k : pykey) (v : A) (gs : list (pykey * list A)) : list (pykey * list A) :=
  match gs with
  | [] => [(k, [v])]
  | (k', vs) :: t => if key_eqb k' k then (k', vs ++ [v]) :: t else (k', vs) :: group_insert k v t
  end.

Definition groupby {A} (keys : list cell) (vals : list A) : list (pykey * list A) :=
  fold_left (fun gs kv => match key_of_cell kv.1 with
                          | Some k => group_insert k kv.2 gs
                          | None => gs end) (combine keys vals) [].

Fixpoint key_mem (k : pykey) (l : list pykey) : bool :=
  match l with [] => false | k' :: t => key_eqb k' k || key_mem k t end.

Fixpoint key_dedup (l : list pykey) : list pykey :=
  match l with
  | [] => []
  | k :: t => if key_mem k t then key_dedup t else k :: key_dedup t
  end.

(** [SeriesGroupBy.nunique()]: distinct non-null values *)
Definition nunique (vs : list cell) : nat :=
  length (key_dedup (omap key_of_cell vs)).

(** [Series.get(k, 0)] on the groupby result *)
Fixpoint group_get {A} (gs : list (pykey * A)) (k : pykey) : option A :=
  match gs with
  | [] => None
  | (k', v) :: t => if key_eqb k' k then Some v else group_get t k
  end.

Definition Qlt_b (x y : Q) : bool := negb (Qle_bool y x).

(** [astype(int)]: truncation toward zero *)
Definition Qtrunc (q : Q) : Z :=
  if Qle_bool 0 q then Qfloor q else (- Qfloor (- q))%Z.

(* ------------------------------------------------------------------ *)
(** ** Cleaner.py: main *)

Section Cleaner.
Context `{L : PyLib}.

(** [to_local_ts]; [None] is NaT. *)
Definition to_local_ts (c : cell) (tz_name : string) : option Timestamp :=
  if negb (cell_truthy c) then None else
  match c with
  | CNaN => None
  | CJ j =>
      match to_datetime_utc j with
      | None => None
      | Some dt => match tz_convert dt tz_name with Some t => Some t | None => Some dt end
      end
  end.

(** [pd.to_numeric(x, errors="coerce")] on one value; [None] is NaN *)
Definition to_numeric_cell (c : cell) : option Q :=
  match c with
  | CJ (JBool b) => Some (if b then 1 else 0)%Q
  | CJ (JInt z) => Some (inject_Z z)
  | CJ (JFloat q) => Some q
  | CJ (JStr s) => to_numeric_str s
  | _ => None
  end.

(** the value of column [k] for record [r], after the backfill with None *)
Definition col_cell (recs : list (list (string * json))) (k : string)
    (r : list (string * json)) : cell :=
  if has_col recs k then df_cell recs k r else CJ JNull.

Definition df_col' (recs : list (list (string * json))) (k : string) : list cell :=
  map (col_cell recs k) recs.

(** [orders_df.groupby("customer.id")["id"].nunique()] *)
Definition cust_counts (recs : list (list (string * json))) : list (pykey * nat) :=
  map (fun g => (g.1, nunique g.2))
      (groupby (df_col' recs "customer.id") (df_col' recs "id")).

(** the first tier applies: the column was in [cols] and has a non-null value *)
Definition tier1 (recs : list (list (string * json))) : bool :=
  has_col recs "customer.orders_count" &&
  existsb (fun c => negb (cell_isna c)) (df_col' recs "customer.orders_count").

(** [is_repeat_customer] of one order row *)
Definition repeat_of (recs : list (list (string * json))) (r : list (string * json)) : bool :=
  if tier1 recs then
    Qlt_b 1%Q (default 0%Q (to_numeric_cell (col_cell recs "customer.orders_count" r)))
  else if has_col recs "customer.id" then
    match key_of_cell (col_cell recs "customer.id" r) with
    | Some k => Nat.ltb 1 (default 0 (group_get (cust_counts recs) k))
    | None => false
    end
  else false.

(** One row of [orders_df] after the order-level columns are computed. *)
Record OrderRow := {
  o_id : cell; o_name : cell; o_number : cell; o_currency : cell;
  o_created_local : option Timestamp; o_date : option Date;
  o_repeat : bool;
  o_subtotal : flt; o_discounts : flt; o_tax : flt;
  o_shipping : flt; o_refunds : flt;
  o_items : cell }.

Definition order_row (recs : list (list (string * json))) (tz_name : string)
    (r : list (string * json)) : option OrderRow :=
  let col k := col_cell recs k r in
  match sum_shipping (col "shipping_lines"), sum_refunds (col "refunds") with
  | Some ship, Some refs =>
      let loc := to_local_ts (col "created_at") tz_name in
      Some {| o_id := col "id"; o_name := col "name"; o_number := col "order_number";
              o_currency := col "currency";
              o_created_local := loc; o_date := option_map ts_date loc;
              o_repeat := repeat_of recs r;
              o_subtotal := parse_money (col "subtotal_price");
              o_discounts := parse_money (col "total_discounts");
              o_tax := parse_money (col "total_tax");
              o_shipping := ship; o_refunds := refs;
              o_items := col "line_items" |}
  | _, _ => None
  end.

(** lines 75-108: [orders_df]; [None] is an exception *)
Definition orders_frame (orders : list (list (string * json))) (tz_name : string)
    : option (list OrderRow) :=
  let recs := map normalise_record orders in
  rows ← mapM (order_row recs tz_name) recs;
  if dt_ok (map o_created_local rows) then Some rows else None.

(** [explode] of one cell: list-likes (lists, and dicts by their keys) give
    one row per element, an empty one gives NaN, anything else is kept. *)
Definition explode_cell (c : cell) : list cell :=
  match c with
  | CJ (JList []) => [CNaN]
  | CJ (JList l) => map CJ l
  | CJ (JObj []) => [CNaN]
  | CJ (JObj kv) => map (fun p => CJ (JStr p.1)) kv
  | _ => [c]
  end.

Definition explode (rows : list OrderRow) : list (OrderRow * cell) :=
  flat_map (fun o => map (pair o) (explode_cell (o_items o))) rows.

(** [pd.json_normalize(exploded["line_items"])]: a line item that is a dict
    is normalised, any other value (NaN, None) gives an empty record. *)
Definition li_rec (c : cell) : list (string * json) :=
  match c with CJ (JObj kv) => normalise_record kv | _ => [] end.

(** A row of [clean_orders.csv]. *)
Record FlatRow := {
  order_id : cell; order_name : cell; order_number : cell;
  order_date : option Date; created_at_local : option Timestamp; currency : cell;
  is_repeat_customer : bool;
  subtotal_price : flt; total_discounts : flt; refunds_amount : flt;
  total_tax : flt; shipping_amount : flt;
  sku : cell; title : cell; variant_id : cell; product_id : cell;
  quantity : Z; price : flt; line_discount : flt; line_gross : flt; line_net : flt;
  net_revenue : flt }.

(** lines 111-129 for one exploded row.  The quantity is an unbounded
    integer: the int64 overflow of [astype(int)] for quantities of
    magnitude 2^63 or more is not modelled. *)
Definition flat_row (lrecs : list (list (string * json))) (p : OrderRow * cell) : FlatRow :=
  let '(o, it) := p in
  let li k := col_cell lrecs k (li_rec it) in
  let qty := Qtrunc (default 0%Q (to_numeric_cell (li "quantity"))) in
  let pr := parse_money (li "price") in
  let disc := parse_money (li "total_discount") in
  let gross := fmul (Fin (inject_Z qty)) pr in
  {| order_id := o_id o; order_name := o_name o; order_number := o_number o;
     order_date := o_date o; created_at_local := o_created_local o;
     currency := o_currency o; is_repeat_customer := o_repeat o;
     subtotal_price := o_subtotal o; total_discounts := o_discounts o;
     refunds_amount := o_refunds o; total_tax := o_tax o;
     shipping_amount := o_shipping o;
     sku := li "sku"; title := li "title"; variant_id := li "variant_id";
     product_id := li "product_id";
     quantity := qty; price := pr; line_discount := disc;
     line_gross := gross; line_net := fsub gross disc;
     net_revenue := fsub (fsub (o_subtotal o) (o_discounts o)) (o_refunds o) |}.

Definition flat_rows (rows : list OrderRow) : list FlatRow :=
  let ex := explode rows in
  let lrecs := map (fun p => li_rec p.2) ex in
  map (flat_row lrecs) ex.

(** ordering of [sort_values(["order_date", "order_id"])]: per key,
    missing values last; lexsort is stable. *)
Definition opt_date_lt (a b : option Date) : bool :=
  match a, b with
  | Some x, Some y => date_lt x y
  | Some _, None => true
  | _, _ => false
  end.

Definition opt_date_eqb (a b : option Date) : bool :=
  match a, b with
  | Some x, Some y => date_eqb x y
  | None, None => true
  | _, _ => false
  end.

Definition key_lt (a b : option pykey) : bool :=
  match a, b with
  | Some (KNum x), Some (KNum y) => Qlt_b x y
  | Some (KStr x), Some (KStr y) => String.ltb x y
  | Some _, None => true
  | _, _ => false
  end.

Definition row_lt (r1 r2 : FlatRow) : bool :=
  opt_date_lt (order_date r1) (order_date r2) ||
  (opt_date_eqb (order_date r1) (order_date r2) &&
   key_lt (key_of_cell (order_id r1)) (key_of_cell (order_id r2))).

End Cleaner.

(** stable insertion sort *)
Fixpoint insert_by {A} (lt : A -> A -> bool) (x : A) (l : list A) : list A :=
  match l with
  | [] => [x]
  | y :: t => if lt x y then x :: y :: t else y :: insert_by lt x t
  end.

Definition sort_stable {A} (lt : A -> A -> bool) (l : list A) : list A :=
  fold_left (fun acc x => insert_by lt x acc) l [].

Section CleanerMain.
Context `{L : PyLib}.

(** [clean] as written to clean_orders.csv (lines 75-156) *)
Definition clean (orders : list (list (string * json))) (tz_name : string)
    : option (list FlatRow) :=
  rows ← orders_frame orders tz_name;
  Some (sort_stable row_lt (flat_rows rows)).

End CleanerMain.

(* ------------------------------------------------------------------ *)
(** ** Reporter.py: main *)

Section Reporter.
Context `{L : PyLib}.

Definition okey_eqb (a b : option pykey) : bool :=
  match a, b with
  | None, None => true
  | Some x, Some y => key_eqb x y
  | _, _ => false
  end.

(** [df.drop_duplicates(subset=["order_id"])]: first occurrence kept; missing
    ids compare equal to each other. *)
Definition drop_duplicates_id (rows : list FlatRow) : list FlatRow :=
  rev (fold_left (fun acc r =>
         if existsb (fun r' => okey_eqb (key_of_cell (order_id r')) (key_of_cell (order_id r))) acc
         then acc else r :: acc) rows []).

Record Summary := {
  total_orders : nat; total_revenue : Q; aov : Q;
  taxes_total : Q; shipping_total : Q; repeat_rate : Q }.

(** lines 34-42 *)
Definition summary (df : list FlatRow) : Summary :=
  let orders := drop_duplicates_id df in
  let n := length orders in
  let rev_ := fsum_skipna (map net_revenue orders) in
  {| total_orders := n;
     total_revenue := rev_;
     aov := if Nat.eqb n 0 then 0%Q else rev_ / inject_Z (Z.of_nat n);
     taxes_total := fsum_skipna (map total_tax orders);
     shipping_total := fsum_skipna (map shipping_amount orders);
     repeat_rate := if Nat.eqb n 0 then 0%Q
                    else inject_Z (Z.of_nat (length (List.filter is_repeat_customer orders)))
                         / inject_Z (Z.of_nat n) |}.

(** [groupby("order_date")]: rows with a missing date are dropped *)
Fixpoint date_group_insert (d : Date) (v : flt) (gs : list (Date * list flt))
    : list (Date * list flt) :=
  match gs with
  | [] => [(d, [v])]
  | (d', vs) :: t => if date_eqb d' d then (d', vs ++ [v]) :: t
                     else (d', vs) :: date_group_insert d v t
  end.

Definition group_by_date (orders : list FlatRow) : list (Date * list flt) :=
  fold_left (fun gs r => match order_date r with
                         | Some d => date_group_insert d (net_revenue r) gs
                         | None => gs end) orders [].

(** line 66: [orders.groupby("order_date")["net_revenue"].sum().sort_values("order_date")] *)
Definition daily (df : list FlatRow) : list (Date * Q) :=
  sort_stable (fun a b => date_lt a.1 b.1)
    (map (fun g => (g.1, fsum_skipna g.2)) (group_by_date (drop_duplicates_id df))).


(** [groupby(["sku", "title"])]: rows where either key is missing are
    dropped, groups come out sorted by key. *)
Definition product_key (r : FlatRow) : option (pykey * pykey) :=
  match key_of_cell (sku r), key_of_cell (title r) with
  | Some a, Some b => Some (a, b)
  | _, _ => None
  end.

Fixpoint pgroup_insert (k : pykey * pykey) (r : FlatRow) (gs : list ((pykey * pykey) * list FlatRow))
    : list ((pykey * pykey) * list FlatRow) :=
  match gs with
  | [] => [(k, [r])]
  | (k', rs) :: t => if key_eqb k'.1 k.1 && key_eqb k'.2 k.2 then (k', rs ++ [r]) :: t
                     else (k', rs) :: pgroup_insert k r t
  end.

Definition pkey_lt (a b : pykey * pykey) : bool :=
  key_lt (Some a.1) (Some b.1) ||
  (key_eqb a.1 b.1 && key_lt (Some a.2) (Some b.2)).

Definition group_by_product (rows : list FlatRow) : list ((pykey * pykey) * list FlatRow) :=
  sort_stable (fun a b => pkey_lt a.1 b.1)
    (fold_left (fun gs r => match product_key r with
                            | Some k => pgroup_insert k r gs
                            | None => gs end) rows []).

(** the two summed columns (the quantity sum as an unbounded integer; the
    int64 wrap-around of pandas' sum is not modelled) *)
Definition sum_quantity (rs : list FlatRow) : Q :=
  inject_Z (fold_right Z.add 0%Z (map quantity rs)).
Definition sum_line_net (rs : list FlatRow) : Q :=
  fsum_skipna (map line_net rs).

(** pandas [nargsort(..., ascending=False)] for values without NaN:
    reverse, ascending argsort, reverse. *)
Definition nargsort_desc (argsort : list Q -> list nat) (v : list Q) : list nat :=
  let idx := rev (seq 0 (length v)) in
  rev (map (fun j => nth j idx 0%nat) (argsort (rev v))).

(** lines 69-80: [.sum().sort_values(metric, ascending=False).head(10)] *)
Definition top_products (argsort : list Q -> list nat) (agg : list FlatRow -> Q)
    (df : list FlatRow) : list ((pykey * pykey) * Q) :=
  let table := map (fun g => (g.1, agg g.2)) (group_by_product df) in
  firstn 10 (map (fun i => nth i table ((KNum 0, KNum 0), 0%Q)) (nargsort_desc argsort (map snd table))).

Definition products_units (argsort : list Q -> list nat) (df : list FlatRow) :=
  top_products argsort sum_quantity df.
Definition products_rev (argsort : list Q -> list nat) (df : list FlatRow) :=
  top_products argsort sum_line_net df.

End Reporter.

(* ------------------------------------------------------------------ *)
(** ** numpy's portable [aquicksort_] (npysort/quicksort.cpp)

    The argsort behind [sort_values] with the default [kind="quicksort"]
    when no SIMD kernel is dispatched: introsort with median-of-3
    partitioning, insertion sort below 17 elements, heapsort when the
    depth budget [2 * msb(n)] runs out.  Pointers are indices into
    [tosort]; loops carry fuel. *)

Module NpSort.

Definition less (v : list Q) (a b : nat) : bool := Qlt_b (nth a v 0%Q) (nth b v 0%Q).

(** [INTP_SWAP] of two slots *)
Definition swap (ts : list nat) (i j : nat) : list nat :=
  let a := nth i ts 0%nat in
  let b := nth j ts 0%nat in
  <[j := a]> (<[i := b]> ts).

Definition at_ (ts : list nat) (i : nat) : nat := nth i ts 0%nat.

(** [do ++pi; while (less(v[*pi], vp))] *)
Fixpoint scan_up (fuel : nat) (v : list Q) (ts : list nat) (vp : Q) (pi : nat) : nat :=
  match fuel with
  | O => pi
  | S f => if Qlt_b (nth (at_ ts (S pi)) v 0%Q) vp then scan_up f v ts vp (S pi) else S pi
  end.

(** [do --pj; while (less(vp, v[*pj]))] *)
Fixpoint scan_down (fuel : nat) (v : list Q) (ts : list nat) (vp : Q) (pj : nat) : nat :=
  match fuel with
  | O => pj
  | S f => if Qlt_b vp (nth (at_ ts (pred pj)) v 0%Q) then scan_down f v ts vp (pred pj) else pred pj
  end.

Fixpoint partition_loop (fuel : nat) (v : list Q) (ts : list nat) (vp : Q) (pi pj : nat)
    : list nat * nat :=
  match fuel with
  | O => (ts, pi)
  | S f =>
      let pi' := scan_up (length ts) v ts vp pi in
      let pj' := scan_down (length ts) v ts vp pj in
      if (pj' <=? pi')%nat then (ts, pi')
      else partition_loop f v (swap ts pi' pj') vp pi' pj'
  end.

(** the insertion sort of [tosort[pl..pr]] *)
Fixpoint shift_down (fuel : nat) (v : list Q) (ts : list nat) (vp : Q) (pl pj : nat)
    : list nat * nat :=
  match fuel with
  | O => (ts, pj)
  | S f =>
      if (pl <? pj)%nat && Qlt_b vp (nth (at_ ts (pred pj)) v 0%Q)
      then shift_down f v (<[pj := at_ ts (pred pj)]> ts) vp pl (pred pj)
      else (ts, pj)
  end.

Fixpoint insertion (fuel : nat) (v : list Q) (ts : list nat) (pl pi pr : nat) : list nat :=
  match fuel with
  | O => ts
  | S f =>
      if (pr <? pi)%nat then ts else
      let vi := at_ ts pi in
      let '(ts', pj) := shift_down (length ts) v ts (nth vi v 0%Q) pl pi in
      insertion f v (<[pj := vi]> ts') pl (S pi) pr
  end.

(** [aheapsort_] on [tosort[pl..pl+n-1]], with [a = tosort + pl - 1] *)
Fixpoint sift (fuel : nat) (v : list Q) (ts : list nat) (base n tmp i j : nat) : list nat :=
  let a k := at_ ts (base + k - 1) in
  match fuel with
  | O => <[base + i - 1 := tmp]> ts
  | S f =>
      if (n <? j)%nat then <[base + i - 1 := tmp]> ts else
      let j' := if (j <? n)%nat && Qlt_b (nth (a j) v 0%Q) (nth (a (S j)) v 0%Q) then S j else j in
      if Qlt_b (nth tmp v 0%Q) (nth (a j') v 0%Q)
      then sift f v (<[base + i - 1 := a j']> ts) base n tmp j' (j' + j')
      else <[base + i - 1 := tmp]> ts
  end.

Fixpoint heapify (fuel : nat) (v : list Q) (ts : list nat) (base n l : nat) : list nat :=
  match fuel with
  | O => ts
  | S f =>
      if (l =? 0)%nat then ts else
      heapify f v (sift (length ts) v ts base n (at_ ts (base + l - 1)) l (l + l)) base n (pred l)
  end.

Fixpoint pop_heap (fuel : nat) (v : list Q) (ts : list nat) (base n : nat) : list nat :=
  match fuel with
  | O => ts
  | S f =>
      if (n <=? 1)%nat then ts else
      let tmp := at_ ts (base + n - 1) in
      let ts1 := <[base + n - 1 := at_ ts base]> ts in
      pop_heap f v (sift (length ts) v ts1 base (pred n) tmp 1 2) base (pred n)
  end.

Definition aheapsort (v : list Q) (ts : list nat) (pl n : nat) : list nat :=
  pop_heap n v (heapify n v ts pl n (Nat.div2 n)) pl n.

(** one partition step of the [while ((pr - pl) > SMALL_QUICKSORT)] loop:
    the new [(tosort, pl, pr)] and the pushed pair *)
Definition partition (v : list Q) (ts : list nat) (pl pr : nat)
    : list nat * nat * nat * (nat * nat) :=
  let pm := (pl + Nat.div2 (pr - pl))%nat in
  let ts1 := if less v (at_ ts pm) (at_ ts pl) then swap ts pm pl else ts in
  let ts2 := if less v (at_ ts1 pr) (at_ ts1 pm) then swap ts1 pr pm else ts1 in
  let ts3 := if less v (at_ ts2 pm) (at_ ts2 pl) then swap ts2 pm pl else ts2 in
  let vp := nth (at_ ts3 pm) v 0%Q in
  let ts4 := swap ts3 pm (pr - 1) in
  let '(ts5, pi) := partition_loop (length ts) v ts4 vp pl (pr - 1) in
  let ts6 := swap ts5 pi (pr - 1) in
  if (pi - pl <? pr - pi)%nat then (ts6, pl, pi - 1, (S pi, pr))
  else (ts6, S pi, pr, (pl, pi - 1)).

Fixpoint partitions (fuel : nat) (v : list Q) (ts : list nat) (pl pr : nat) (cdepth : Z)
    (stack : list (nat * nat * Z)) : list nat * nat * nat * Z * list (nat * nat * Z) :=
  match fuel with
  | O => (ts, pl, pr, cdepth, stack)
  | S f =>
      if (16 <? pr - pl)%nat then
        let '(ts', pl', pr', pushed) := partition v ts pl pr in
        let cd := (cdepth - 1)%Z in
        partitions f v ts' pl' pr' cd ((pushed.1, pushed.2, cd) :: stack)
      else (ts, pl, pr, cdepth, stack)
  end.

Fixpoint msb (n : nat) (fuel : nat) : Z :=
  match fuel with
  | O => 0
  | S f => if (n <=? 1)%nat then 0 else (1 + msb (Nat.div2 n) f)%Z
  end.

Fixpoint outer (fuel : nat) (v : list Q) (ts : list nat) (pl pr : nat) (cdepth : Z)
    (stack : list (nat * nat * Z)) : list nat :=
  match fuel with
  | O => ts
  | S f =>
      let ts' :=
        if (cdepth <? 0)%Z then aheapsort v ts pl (S pr - pl)
        else let '(ts1, pl1, pr1, _, _) := partitions (length ts) v ts pl pr cdepth [] in
             insertion (length ts) v ts1 pl1 (S pl1) pr1 in
      let stack' :=
        if (cdepth <? 0)%Z then stack
        else let '(_, _, _, _, st) := partitions (length ts) v ts pl pr cdepth [] in st ++ stack in
      match stack' with
      | [] => ts'
      | (pl', pr', cd') :: rest => outer f v ts' pl' pr' cd' rest
      end
  end.

(** [np.argsort(v, kind="quicksort")] on the portable path *)
Definition aquicksort (v : list Q) : list nat :=
  match length v with
  | O => []
  | S m => outer (length v * length v) v (seq 0 (length v)) 0 m (msb (length v) (length v) * 2) []
  end.

End NpSort.

(* ------------------------------------------------------------------ *)
(** ** order_puller.py: extract_next_link and fetch_orders *)

Module Puller.

Definition chr (n : nat) : string := String (Ascii.ascii_of_nat n) EmptyString.

(** [s.split(",")] *)
Fixpoint split_go (sep : Ascii.ascii) (s cur : string) : list string :=
  match s with
  | EmptyString => [cur]
  | String c t =>
      if Ascii.eqb c sep then cur :: split_go sep t EmptyString
      else split_go sep t (String.append cur (String c EmptyString))
  end.

(** [str.isspace] on ASCII characters *)
Definition is_space (c : Ascii.ascii) : bool :=
  let n := Ascii.nat_of_ascii c in
  ((9 <=? n) && (n <=? 13)) || ((28 <=? n) && (n <=? 32)).

Fixpoint lstrip (l : list Ascii.ascii) : list Ascii.ascii :=
  match l with
  | c :: t => if is_space c then lstrip t else l
  | [] => []
  end.

(** [p.strip()] *)
Definition strip (s : string) : string :=
  String.string_of_list_ascii (rev (lstrip (rev (lstrip (String.list_ascii_of_string s))))).

(** [pat in s] *)
Fixpoint contains (pat s : string) : bool :=
  String.prefix pat s ||
  match s with EmptyString => false | String _ t => contains pat t end.

(** [s.find(c)] for a one-character [c]: the index, or -1 *)
Fixpoint find_char (c : Ascii.ascii) (s : string) : Z :=
  match s with
  | EmptyString => (-1)%Z
  | String c' t => if Ascii.eqb c c' then 0%Z
                   else let r := find_char c t in if (r <? 0)%Z then r else (r + 1)%Z
  end.

(** [s[start:end]] with Python's negative-index and clamping rules *)
Definition py_slice (s : string) (start end_ : Z) : string :=
  let n := Z.of_nat (String.length s) in
  let norm i := if (i <? 0)%Z then Z.max 0 (i + n) else Z.min i n in
  let a := norm start in
  let b := norm end_ in
  if (b <=? a)%Z then EmptyString
  else String.substring (Z.to_nat a) (Z.to_nat (b - a)) s.

Definition rel_next : string :=
  String.append "rel=" (String.append (chr 34) (String.append "next" (chr 34))).

Definition extract_next_link (link_header : option string) : option string :=
  match link_header with
  | None => None
  | Some h =>
      if String.eqb h "" then None else
      let parts := map strip (split_go (Ascii.ascii_of_nat 44) h EmptyString) in
      match List.find (contains rel_next) parts with
      | Some p => Some (py_slice p (find_char (Ascii.ascii_of_nat 60) p + 1) (find_char (Ascii.ascii_of_nat 62) p))
      | None => None
      end
  end.

(** the query parameters of the first request *)
Record Params := { limit : Z; created_at_min : string; status_filter : string }.

Definition first_params (since_iso : string) : Params :=
  {| limit := 250; created_at_min := since_iso; status_filter := "any" |}.

(** [requests.get(url, headers=headers, params=params, timeout=30)] *)
Record Request := { req_url : string; req_params : option Params }.

Record Response (A : Type) := {
  status_code : Z;
  retry_after : option string;   (** the Retry-After header *)
  link : option string;          (** the Link header *)
  orders_body : option (list A)  (** [resp.json().get("orders")] *) }.
Arguments status_code {A}. Arguments retry_after {A}.
Arguments link {A}. Arguments orders_body {A}.

Inductive FetchError :=
| HTTPError (code : Z)       (** [resp.raise_for_status()] *)
| ValueError                 (** [int(...)] on a bad Retry-After, or
                                 [time.sleep] of a negative one *)
| NoMoreResponses.           (** the modelled server sent no further response *)

Definition base_url (store_domain api_version : string) : string :=
  String.append "https://" (String.append store_domain
    (String.append "/admin/api/" (String.append api_version "/orders.json"))).

Section Fetch.
Context {A : Type}.
(** [int(s)] *)
Variable py_int : string -> option Z.

(** the [while True] loop of [fetch_orders]: each iteration sends one
    request and consumes the server's next response; the requests sent are
    logged. *)
Fixpoint fetch_loop (rs : list (Response A)) (url : string) (params : option Params)
    (all_orders : list A) (sent : list Request) : list Request * (FetchError + list A) :=
  match rs with
  | [] => (sent, inl NoMoreResponses)
  | r :: rs' =>
      let sent' := sent ++ [{| req_url := url; req_params := params |}] in
      if Z.eqb (status_code r) 429 then
        match py_int (default "2" (retry_after r)) with
        | Some n =>
            (* [time.sleep(n)] raises ValueError for a negative length *)
            if (n <? 0)%Z then (sent', inl ValueError)
            else fetch_loop rs' url params all_orders sent'
        | None => (sent', inl ValueError)
        end
      else if (400 <=? status_code r)%Z && (status_code r <? 600)%Z
      then (sent', inl (HTTPError (status_code r)))
      else
        let all' := all_orders ++ default [] (orders_body r) in
        match extract_next_link (link r) with
        | Some u => if String.eqb u "" then (sent', inr all')
                    else fetch_loop rs' u None all' sent'
        | None => (sent', inr all')
        end
  end.

Definition fetch_orders (store_domain api_version since_iso : string) (rs : list (Response A))
    : list Request * (FetchError + list A) :=
  fetch_loop rs (base_url store_domain api_version) (Some (first_params since_iso)) [] [].

End Fetch.
End Puller.

(* ------------------------------------------------------------------ *)
(** ** Cleaner.py: get_shop_timezone *)

Module ShopTz.

Inductive HttpResult :=
| NetworkError                                 (** requests raised *)
| HttpResponse (status : Z) (body : option json). (** [None]: body is not JSON *)

Inductive Exc := RequestExc | HTTPErrorExc | JSONDecodeError | AttributeError.

Definition shop_url (store api_version : string) : string :=
  String.append "https://" (String.append store
    (String.append "/admin/api/" (String.append api_version "/shop.json"))).

(** the body of the [try] block *)
Definition try_block (get : string -> string -> HttpResult) (store token api_version : string)
    : Exc + json :=
  match get (shop_url store api_version) token with
  | NetworkError => inl RequestExc
  | HttpResponse st body =>
      if (400 <=? st)%Z && (st <? 600)%Z then inl HTTPErrorExc else
      match body with
      | None => inl JSONDecodeError
      | Some (JObj kv) =>
          match default (JObj []) (py_get kv "shop") with
          | JObj shop =>
              let a := default JNull (py_get shop "iana_timezone") in
              if json_truthy a then inr a else
              let b := default JNull (py_get shop "timezone") in
              if json_truthy b then inr b else inr (JStr "UTC")
          | _ => inl AttributeError
          end
      | Some _ => inl AttributeError
      end
  end.

(** [get_shop_timezone]: [except Exception: return "UTC"] *)
Definition get_shop_timezone (get : string -> string -> HttpResult) (store token api_version : string)
    : json :=
  match try_block get store token api_version with
  | inl _ => JStr "UTC"
  | inr v => v
  end.

End ShopTz.

(* ------------------------------------------------------------------ *)
(** ** Cleaner.py: main as a file-system transformer *)

Module CleanerIO.

(** a resolved path: directory and file name *)
Definition path := (string * string)%type.

Record Env := {
  output_dir : string;   (** [Path(os.getenv("OUTPUT_DIR", "output")).resolve()] *)
  cwd : string;
  store_set : bool;      (** [STORE] is truthy *)
  token_set : bool;      (** [TOKEN] is truthy *)
  outdir_ok : bool }.    (** [folder.mkdir(parents=True, exist_ok=True)] succeeds *)

Inductive Err := AssertionError | OSError | FileNotFound | DecodeError | CleanError.

Section Main.
Context `{L : PyLib}.
(** [json.load] and [DataFrame.to_csv(index=False)] *)
Variable json_load : string -> option (list (list (string * json))).
Variable to_csv : list FlatRow -> string.

Definition raw_path (env : Env) (fs : gmap path string) : path :=
  if fs !! (output_dir env, "raw_orders.json") then (output_dir env, "raw_orders.json")
  else (cwd env, "raw_orders.json").

Definition clean_csv_path (env : Env) : path := (output_dir env, "clean_orders.csv").

(** [main()] with the timezone resolution fixed to [tz_name] *)
Definition main (env : Env) (tz_name : string) (fs : gmap path string)
    : gmap path string * (Err + nat) :=
  if negb (store_set env && token_set env) then (fs, inl AssertionError) else
  (* [get_shop_timezone] never raises; [get_output_dir()] may *)
  if negb (outdir_ok env) then (fs, inl OSError) else
  match fs !! raw_path env fs with
  | None => (fs, inl FileNotFound)
  | Some text =>
      match json_load text with
      | None => (fs, inl DecodeError)
      | Some orders =>
          match clean orders tz_name with
          | None => (fs, inl CleanError)
          | Some rows => (<[clean_csv_path env := to_csv rows]> fs, inr (length rows))
          end
      end
  end.

End Main.
End CleanerIO.

(* ------------------------------------------------------------------ *)
(** ** order_puller.py: save_outputs *)

Module PullerIO.
Import CleanerIO.

Section Save.
Context {A : Type}.
(** [json.dump(orders, f, ensure_ascii=False, indent=2)] *)
Variable json_dump : list A -> string.
(** [pd.json_normalize(orders, sep=".").to_csv(csv_path, index=False)] *)
Variable normalize_csv : list A -> string.

(** [save_outputs(orders)], with [outdir] the resolved output folder *)
Definition save_outputs (outdir : string) (orders : list A) (fs : gmap path string)
    : gmap path string :=
  let fs := <[(outdir, "raw_orders.json") := json_dump orders]> fs in
  match orders with
  | [] => fs
  | _ :: _ => <[(outdir, "raw_orders.csv") := normalize_csv orders]> fs
  end.

End Save.
End PullerIO.

(* ------------------------------------------------------------------ *)
(** ** run_report.py: main *)

Module RunReport.

(** the parsed command line *)
Record Args := {
  a_store : option string; a_token : option string; a_days : option Z;
  a_api_version : option string;
  skip_pull : bool; skip_clean : bool; skip_report : bool; open_flag : bool }.

Inductive Exc := CalledProcessError (returncode : Z) | KeyboardInterrupt.

(** the commands run so far, in order, and an exception or a value *)
Definition M (X : Type) : Type := list (list string) -> list (list string) * (Exc + X).

Definition ret {X} (x : X) : M X := fun log => (log, inr x).

Definition bind {X Y} (m : M X) (f : X -> M Y) : M Y :=
  fun log => let '(log', r) := m log in
             match r with inl e => (log', inl e) | inr x => f x log' end.

Local Notation "m1 ;; m2" := (bind m1 (fun _ => m2)) (at level 100, right associativity).

(** [run(cmd, cwd=...)], i.e. [subprocess.run(cmd, cwd=cwd, check=True)];
    [runner cmd] is the exit code of the child, [None] when the user
    interrupts it (KeyboardInterrupt). *)
Definition run (runner : list string -> option Z) (cmd : list string) : M unit :=
  fun log =>
    let log := log ++ [cmd] in
    match runner cmd with
    | None => (log, inl KeyboardInterrupt)
    | Some 0%Z => (log, inr tt)
    | Some c => (log, inl (CalledProcessError c))
    end.

Definition when (b : bool) (m : M unit) : M unit := if b then m else ret tt.

(** [if args.x: cmd += [flag, args.x]] *)
Definition opt_arg (flag : string) (x : option string) : list string :=
  match x with
  | Some s => if String.eqb s "" then [] else [flag; s]
  | None => []
  end.

(** [str(base / name)] *)
Definition script (base name : string) : string := base +:+ "/" +:+ name.

Definition pull_cmd (py base : string) (args : Args) : list string :=
  [py; script base "order_puller.py"] ++
  opt_arg "--store" (a_store args) ++ opt_arg "--token" (a_token args) ++
  (match a_days args with Some d => ["--days"; pretty d] | None => [] end) ++
  opt_arg "--api-version" (a_api_version args).

(** the three steps of the [try] block *)
Definition steps (runner : list string -> option Z) (py base : string) (args : Args) : M unit :=
  when (negb (skip_pull args)) (run runner (pull_cmd py base args)) ;;
  when (negb (skip_clean args)) (run runner [py; script base "Cleaner.py"]) ;;
  when (negb (skip_report args)) (run runner [py; script base "Reporter.py"]).

(** [main()]: the commands run, whether [open_file] is called, and the
    return value, [None] when an exception escapes [main].
    [exists_ p] is [Path(p).exists()] before the run; after the steps,
    [outdir_ok] says whether [get_output_dir()] (a mkdir) succeeds (its
    OSError is not caught), [report_exists] is
    [report_path.exists()], and [open_interrupted] whether the viewer
    started by [open_file] is interrupted (KeyboardInterrupt is not an
    [Exception], so [open_file] does not swallow it). *)
Definition main (exists_ : string -> bool) (outdir_ok report_exists open_interrupted : bool)
    (runner : list string -> option Z) (py base : string) (args : Args)
    : list (list string) * bool * option Z :=
  if negb (exists_ (script base "order_puller.py") && exists_ (script base "Cleaner.py")
           && exists_ (script base "Reporter.py"))
  then ([], false, Some 1%Z) else
  match steps runner py base args [] with
  | (log, inr _) =>
      if negb outdir_ok then (log, false, None) else
      if open_flag args && report_exists then
        (log, true, Some (if open_interrupted then 130%Z else 0%Z))
      else (log, false, Some 0%Z)
  | (log, inl (CalledProcessError c)) => (log, false, Some c)
  | (log, inl KeyboardInterrupt) => (log, false, Some 130%Z)
  end.

End RunReport.

(* ------------------------------------------------------------------ *)
(** ** A concrete library instance, used to run the model on examples *)

Definition digit_val (a : Ascii.ascii) : option Z :=
  let n := Ascii.nat_of_ascii a in
  if (48 <=? n)%nat && (n <=? 57)%nat then Some (Z.of_nat (n - 48)) else None.

(** decimal literals [ddd] or [ddd.ddd] *)
Fixpoint dec_parse (s : string) (num : Z) (den : positive) (dot : bool) (nd : nat)
    : option Q :=
  match s with
  | EmptyString => if Nat.eqb nd 0 then None else Some (Qmake num den)
  | String c t =>
      if Ascii.eqb c (Ascii.ascii_of_nat 46) then (if dot then None else dec_parse t num den true nd)
      else match digit_val c with
           | Some d => dec_parse t (num * 10 + d)%Z (if dot then (den * 10)%positive else den) dot (S nd)
           | None => None
           end
  end.

Definition demo_lib : PyLib := {|
  py_float_str := fun s => option_map Fin (dec_parse s 0 1 false 0);
  to_numeric_str := fun s => dec_parse s 0 1 false 0;
  Timestamp := Z;
  Date := Z;
  to_datetime_utc := fun j => match j with
                              | JStr s => option_map Qfloor (dec_parse s 0 1 false 0)
                              | JInt z => Some z
                              | _ => None end;
  tz_convert := fun t tz => if String.eqb tz "UTC" then Some t else None;
  ts_date := fun t => (t / 86400)%Z;
  date_lt := Z.ltb;
  date_eqb := Z.eqb;
  dt_ok := fun l => negb (Nat.eqb (length l) 0)
|}.

(** Properties of responses, used to state the pagination claim. *)
Module PullerSpec.
Import Puller.

(** a successful page: not 429 and no error status *)
Definition page_ok {A} (r : Response A) : Prop :=
  status_code r <> 429%Z /\ ~ (400 <= status_code r < 600)%Z.

(** the response carries a next-page link [u] *)
Definition has_next {A} (r : Response A) (u : string) : Prop :=
  extract_next_link (link r) = Some u /\ u <> "".

(** the response carries no next-page link *)
Definition last_page {A} (r : Response A) : Prop :=
  match extract_next_link (link r) with None => True | Some u => u = "" end.

Definition batch {A} (r : Response A) : list A := default [] (orders_body r).

End PullerSpec.

(** A few concrete pages for the examples. *)
Module PullerDemo.
Import Puller.

Definition next_header (u : string) : string :=
  String.append "<" (String.append u (String.append ">; rel=" (String.append (chr 34) (String.append "next" (chr 34))))).

Definition page (orders : list nat) (next : option string) : Response nat :=
  {| status_code := 200; retry_after := None; link := option_map next_header next;
     orders_body := Some orders |}.

Definition p1 := page [1; 2] (Some "https://s/admin/api/2025-10/orders.json?page_info=b").
Definition p2 := page [3] (Some "https://s/admin/api/2025-10/orders.json?page_info=c").
Definition p3 := page [4; 5] None.

End PullerDemo.

(** Shapes of the shop response, used to state the resolver's contract. *)
Module ShopTzSpec.
Import ShopTz.

(** The shop object of a response, when the request succeeded, the body is a
    JSON object and its ["shop"] entry (default [{}]) is an object. *)
Definition shop_object (r : HttpResult) : option (list (string * json)) :=
  match r with
  | HttpResponse st (Some (JObj kv)) =>
      if (400 <=? st)%Z && (st <? 600)%Z then None else
      match default (JObj []) (py_get kv "shop") with
      | JObj shop => Some shop
      | _ => None
      end
  | _ => None
  end.

Definition field (shop : list (string * json)) (k : string) : json :=
  default JNull (py_get shop k).

Definition is_str (j : json) : Prop := exists s, j = JStr s.

End ShopTzSpec.

(** Example inputs for Cleaner.main. *)
Module Inputs.

(** two orders; the second has no subtotal_price key *)
Definition orders_missing_subtotal : list (list (string * json)) :=
  [ [("id", JInt 1); ("subtotal_price", JStr "10.00"); ("line_items", JList [])];
    [("id", JInt 2); ("line_items", JList [])] ].

(** one order whose second line item has no price key *)
Definition orders_missing_price : list (list (string * json)) :=
  [ [("id", JInt 1);
     ("line_items", JList [JObj [("sku", JStr "A"); ("quantity", JInt 2); ("price", JStr "3.50")];
                           JObj [("sku", JStr "B"); ("quantity", JInt 1)]])] ].

(** an order with two priced line items and an order with none *)
Definition orders_mixed : list (list (string * json)) :=
  [ [("id", JInt 1); ("subtotal_price", JStr "9.00");
     ("line_items", JList [JObj [("sku", JStr "A"); ("quantity", JInt 2); ("price", JStr "3.00")];
                           JObj [("sku", JStr "B"); ("quantity", JInt 1); ("price", JStr "3.00")]])];
    [("id", JInt 2); ("subtotal_price", JStr "5.00"); ("line_items", JList [])] ].

Definition mixed_out : list FlatRow :=
  Eval vm_compute in default [] (clean (L:=demo_lib) orders_mixed "UTC").

(** one order with an empty line-item list *)
Definition orders_one_empty : list (list (string * json)) :=
  [ [("id", JInt 1); ("subtotal_price", JStr "10.00"); ("line_items", JList [])] ].

(** its clean_orders.csv rows *)
Definition one_empty_out : list FlatRow :=
  Eval vm_compute in default [] (clean (L:=demo_lib) Inputs.orders_one_empty "UTC").



(** one order with a line item that has no sku *)
Definition orders_null_sku : list (list (string * json)) :=
  [ [("id", JInt 1); ("line_items",
      JList [JObj [("sku", JStr "A"); ("title", JStr "Hat"); ("quantity", JInt 2); ("price", JStr "4")];
             JObj [("title", JStr "Gift"); ("quantity", JInt 1); ("price", JStr "5")]])] ].

Definition null_sku_out : list FlatRow :=
  Eval vm_compute in default [] (clean (L:=demo_lib) orders_null_sku "UTC").

(** customer 10 has orders 1 and 2, customer 20 has order 3; no
    orders_count field *)
Definition orders_ab : list (list (string * json)) :=
  [ [("id", JInt 1); ("customer", JObj [("id", JInt 10)]); ("line_items", JList [])];
    [("id", JInt 2); ("customer", JObj [("id", JInt 10)]); ("line_items", JList [])];
    [("id", JInt 3); ("customer", JObj [("id", JInt 20)]); ("line_items", JList [])] ].

Definition ab_rows : list OrderRow :=
  Eval vm_compute in default [] (orders_frame (L:=demo_lib) orders_ab "UTC").

(** order 1 has a creation time (epoch seconds for [demo_lib]), order 2
    has none *)
Definition orders_undated : list (list (string * json)) :=
  [ [("id", JInt 1); ("created_at", JStr "86400"); ("subtotal_price", JStr "10.00");
     ("line_items", JList [])];
    [("id", JInt 2); ("subtotal_price", JStr "5.00"); ("line_items", JList [])] ].


End Inputs.

(** Order-level and line-level parts of a flattened row. *)
Module FlattenSpec.

Section S.
Context `{L : PyLib}.

(** the order-level columns of a row of clean_orders.csv *)
Definition order_fields (r : FlatRow) :=
  (order_id r, order_name r, order_number r, order_date r, created_at_local r, currency r,
   is_repeat_customer r, subtotal_price r, total_discounts r, refunds_amount r,
   total_tax r, shipping_amount r, net_revenue r).

(** the same columns as computed for the order in [orders_df] *)
Definition order_fields_of (o : OrderRow) :=
  (o_id o, o_name o, o_number o, o_date o, o_created_local o, o_currency o,
   o_repeat o, o_subtotal o, o_discounts o, o_refunds o, o_tax o, o_shipping o,
   fsub (fsub (o_subtotal o) (o_discounts o)) (o_refunds o)).

(** a row with no line-item data: sku, title, variant_id and product_id
    null, quantity 0 *)
Definition empty_line_row (r : FlatRow) : Prop :=
  cell_isna (sku r) = true /\ cell_isna (title r) = true /\
  cell_isna (variant_id r) = true /\ cell_isna (product_id r) = true /\
  quantity r = 0%Z.

End S.

End FlattenSpec.

(** What Reporter.py needs from numpy's argsort. *)
Module ReporterSpec.



End ReporterSpec.

(** The repeat-customer rule, the date split of revenue and the product
    grouping step, as used in the statements. *)
Module RepeatSpec.

Section S.
Context `{L : PyLib}.

(** the lifetime order count is a column of the input with a non-null value *)
Definition orders_count_present (recs : list (list (string * json))) : bool :=
  has_col recs "customer.orders_count" &&
  existsb (fun r => negb (cell_isna (col_cell recs "customer.orders_count" r))) recs.

(** the order ids of the rows whose customer id equals [k] *)
Definition ids_with_customer (recs : list (list (string * json))) (k : pykey) : list cell :=
  omap (fun r => match key_of_cell (col_cell recs "customer.id" r) with
                 | Some k' => if key_eqb k' k then Some (col_cell recs "id" r) else None
                 | None => None
                 end) recs.

(** the three tiers *)
Definition repeat_spec (recs : list (list (string * json))) (r : list (string * json)) : bool :=
  if orders_count_present recs then
    Qlt_b 1%Q (default 0%Q (to_numeric_cell (col_cell recs "customer.orders_count" r)))
  else if has_col recs "customer.id" then
    match key_of_cell (col_cell recs "customer.id" r) with
    | Some k => Nat.ltb 1 (nunique (ids_with_customer recs k))
    | None => false
    end
  else false.



(** one step of [groupby(["sku", "title"])] *)
Definition product_step (gs : list ((pykey * pykey) * list FlatRow)) (r : FlatRow) :=
  match product_key r with
  | Some k => pgroup_insert k r gs
  | None => gs
  end.


End S.

(** the values of [kvs] whose key equals [k] *)
Fixpoint sel {A} (k : pykey) (kvs : list (cell * A)) : list A :=
  match kvs with
  | [] => []
  | (c, v) :: t =>
      match key_of_cell c with
      | Some k' => if key_eqb k' k then v :: sel k t else sel k t
      | None => sel k t
      end
  end.

Definition opt_nonempty {A} (l : list A) : option (list A) :=
  match l with [] => None | _ => Some l end.

End RepeatSpec.


(** Link headers as Shopify sends them: [<u1>; rel="previous", <u2>; rel="next"]. *)
Module LinkSpec.
Import Puller.

Definition link_part (u rel : string) : string :=
  "<" +:+ u +:+ ">; rel=" +:+ chr 34 +:+ rel +:+ chr 34.

Definition link_header (ps : list (string * string)) : string :=
  String.concat ", " (map (fun p => link_part p.1 p.2) ps).

Definition has_char (c : Ascii.ascii) (s : string) : bool :=
  existsb (Ascii.eqb c) (String.list_ascii_of_string s).

End LinkSpec.

(** The amounts summed by the money helpers. *)
Module MoneySpec.

Section S.
Context `{L : PyLib}.

(** [parse_money(s.get("price"))] for a dict [s] *)
Definition price_of (s : json) : flt :=
  match s with JObj kv => parse_money (CJ (default JNull (py_get kv "price"))) | _ => Fin 0 end.

(** [t.get("kind") == "refund"] *)
Definition is_refund (t : json) : bool :=
  match t with
  | JObj kv => match py_get kv "kind" with Some (JStr k) => String.eqb k "refund" | _ => false end
  | _ => false
  end.

(** [parse_money(t.get("amount"))] for a dict [t] *)
Definition txn_amount (t : json) : flt :=
  match t with JObj kv => parse_money (CJ (default JNull (py_get kv "amount"))) | _ => Fin 0 end.

End S.
End MoneySpec.

(** The commands main is asked to run. *)
Module RunReportSpec.
Import RunReport.

Definition planned (py base : string) (args : Args) : list (list string) :=
  (if skip_pull args then [] else [pull_cmd py base args]) ++
  (if skip_clean args then [] else [[py; script base "Cleaner.py"]]) ++
  (if skip_report args then [] else [[py; script base "Reporter.py"]]).

Definition scripts_present (exists_ : string -> bool) (base : string) : bool :=
  exists_ (script base "order_puller.py") && exists_ (script base "Cleaner.py")
  && exists_ (script base "Reporter.py").

(** running a list of commands one after the other with [run] *)
Fixpoint run_all (runner : list string -> option Z) (cmds : list (list string)) : M unit :=
  match cmds with
  | [] => ret tt
  | c :: cs => bind (run runner c) (fun _ => run_all runner cs)
  end.

End RunReportSpec.

(** The rows kept by [drop_duplicates], given the rows already kept. *)
Module DedupSpec.

Section S.
Context `{L : PyLib}.

Fixpoint first_new (seen : list FlatRow) (l : list FlatRow) : list FlatRow :=
  match l with
  | [] => []
  | r :: t =>
      if existsb (fun r' => okey_eqb (key_of_cell (order_id r')) (key_of_cell (order_id r))) seen
      then first_new seen t else r :: first_new (r :: seen) t
  end.

End S.
End DedupSpec.

(* ================================================================== *)
(** * Theorems *)

Module PullerProofs.
Import Puller PullerSpec.

Lemma status_checks {A} (r : Response A) :
  page_ok r ->
  Z.eqb (status_code r) 429 = false /\
  ((400 <=? status_code r)%Z && (status_code r <? 600)%Z) = false.
Proof.
  intros [H1 H2]. split.
  - apply Z.eqb_neq. exact H1.
  - destruct (400 <=? status_code r)%Z eqn:E1; destruct (status_code r <? 600)%Z eqn:E2;
      simpl; try reflexivity.
    exfalso. apply H2. apply Z.leb_le in E1. apply Z.ltb_lt in E2. lia.
Qed.

Lemma fetch_loop_next {A} py_int (r : Response A) rs url params acc sent u :
  page_ok r -> has_next r u ->
  fetch_loop py_int (r :: rs) url params acc sent =
  fetch_loop py_int rs u None (acc ++ batch r) (sent ++ [{| req_url := url; req_params := params |}]).
Proof.
  intros Hok [Hl Hu]. destruct (status_checks r Hok) as [E1 E2].
  simpl. rewrite E1, E2, Hl.
  destruct (String.eqb u "") eqn:Eu.
  - apply String.eqb_eq in Eu. contradiction.
  - reflexivity.
Qed.

Lemma fetch_loop_last {A} py_int (r : Response A) rs url params acc sent :
  page_ok r -> last_page r ->
  fetch_loop py_int (r :: rs) url params acc sent =
  (sent ++ [{| req_url := url; req_params := params |}], inr (acc ++ batch r)).
Proof.
  intros Hok Hl. destruct (status_checks r Hok) as [E1 E2].
  unfold last_page in Hl. simpl. rewrite E1, E2.
  destruct (extract_next_link (link r)) as [u|]; [|reflexivity].
  subst u. reflexivity.
Qed.

(** C7: three successful pages, each but the last with a next-page Link
    header: exactly three requests, the first with the caller's filter
    parameters and the others with the bare next-page link, and the
    result is the concatenation of the three batches in page order. *)
Theorem fetch_three_pages {A} (py_int : string -> option Z) (store ver since : string)
    (r1 r2 r3 : Response A) (rest : list (Response A)) (u1 u2 : string) :
  page_ok r1 -> page_ok r2 -> page_ok r3 ->
  has_next r1 u1 -> has_next r2 u2 -> last_page r3 ->
  fetch_orders py_int store ver since (r1 :: r2 :: r3 :: rest) =
  ([ {| req_url := base_url store ver; req_params := Some (first_params since) |};
     {| req_url := u1; req_params := None |};
     {| req_url := u2; req_params := None |} ],
   inr (batch r1 ++ batch r2 ++ batch r3)).
Proof.
  intros H1 H2 H3 N1 N2 N3. unfold fetch_orders.
  rewrite (fetch_loop_next py_int r1 _ _ _ _ _ u1 H1 N1).
  rewrite (fetch_loop_next py_int r2 _ _ _ _ _ u2 H2 N2).
  rewrite (fetch_loop_last py_int r3 _ _ _ _ _ H3 N3).
  simpl. rewrite <- app_assoc. reflexivity.
Qed.

End PullerProofs.

Module PullerWitness.
Import Puller PullerSpec PullerDemo PullerProofs.

Lemma fetch_three_pages_witness :
  (page_ok p1 /\ page_ok p2 /\ page_ok p3 /\
   has_next p1 "https://s/admin/api/2025-10/orders.json?page_info=b" /\
   has_next p2 "https://s/admin/api/2025-10/orders.json?page_info=c" /\ last_page p3) /\
  fetch_orders (fun _ => None) "s" "2025-10" "2025-01-01T00:00:00Z" [p1; p2; p3] =
  ([ {| req_url := base_url "s" "2025-10"; req_params := Some (first_params "2025-01-01T00:00:00Z") |};
     {| req_url := "https://s/admin/api/2025-10/orders.json?page_info=b"; req_params := None |};
     {| req_url := "https://s/admin/api/2025-10/orders.json?page_info=c"; req_params := None |} ],
   inr [1; 2; 3; 4; 5]).
Proof.
  assert (Hok : forall r : Response nat, status_code r = 200%Z -> page_ok r).
  { intros r Hr. unfold page_ok. rewrite Hr. split; [discriminate | lia]. }
  assert (P1 : page_ok p1) by (apply Hok; reflexivity).
  assert (P2 : page_ok p2) by (apply Hok; reflexivity).
  assert (P3 : page_ok p3) by (apply Hok; reflexivity).
  assert (N1 : has_next p1 "https://s/admin/api/2025-10/orders.json?page_info=b")
    by (split; [vm_compute; reflexivity | discriminate]).
  assert (N2 : has_next p2 "https://s/admin/api/2025-10/orders.json?page_info=c")
    by (split; [vm_compute; reflexivity | discriminate]).
  assert (N3 : last_page p3) by (vm_compute; exact I).
  split; [tauto|].
  exact (fetch_three_pages (fun _ => None) "s" "2025-10" "2025-01-01T00:00:00Z" p1 p2 p3 []
           _ _ P1 P2 P3 N1 N2 N3).
Defined.

End PullerWitness.

Module ShopTzProofs.
Import ShopTz ShopTzSpec.

(** X17: the resolver always returns a value (it never raises); it
    returns "UTC" whenever the request, the status, the decoding or the
    shape of the body fails; otherwise it returns the shop's iana_timezone
    value when truthy, else its timezone value when truthy, else "UTC".
    The result is a string whenever the chosen field holds one. *)
Theorem get_shop_timezone_spec (get : string -> string -> HttpResult) (store token ver : string) :
  let res := get_shop_timezone get store token ver in
  match shop_object (get (shop_url store ver) token) with
  | None => res = JStr "UTC"
  | Some shop =>
      (json_truthy (field shop "iana_timezone") = true -> res = field shop "iana_timezone") /\
      (json_truthy (field shop "iana_timezone") = false ->
       json_truthy (field shop "timezone") = true -> res = field shop "timezone") /\
      (json_truthy (field shop "iana_timezone") = false ->
       json_truthy (field shop "timezone") = false -> res = JStr "UTC") /\
      ((json_truthy (field shop "iana_timezone") = true -> is_str (field shop "iana_timezone")) ->
       (json_truthy (field shop "timezone") = true -> is_str (field shop "timezone")) ->
       is_str res)
  end.
Proof.
  cbv zeta. unfold get_shop_timezone, try_block, shop_object, field.
  destruct (get (shop_url store ver) token) as [|st body]; [reflexivity|].
  destruct ((400 <=? st)%Z && (st <? 600)%Z).
  - destruct body as [[]|]; reflexivity.
  - destruct body as [[]|]; try reflexivity.
    destruct (default (JObj []) (py_get kv "shop")); try reflexivity.
    destruct (json_truthy (default JNull (py_get kv0 "iana_timezone"))) eqn:Ea;
    destruct (json_truthy (default JNull (py_get kv0 "timezone"))) eqn:Eb;
    repeat split; intros; try discriminate; try reflexivity;
    repeat match goal with H : ?P -> _, H' : ?P |- _ => specialize (H H') end;
    try assumption; try (exists "UTC"; reflexivity);
    match goal with H : true = true -> _ |- _ => apply H; reflexivity end.
Qed.

(** C9: [get_shop_timezone] is annotated [-> str], but a successful
    response whose iana_timezone holds the number 5 makes it return that
    number unchanged: no exception is raised, so there is no fallback to
    "UTC", and the result is not a timezone name. *)
Lemma get_shop_timezone_non_string :
  let get := fun (_ _ : string) =>
    HttpResponse 200 (Some (JObj [("shop", JObj [("iana_timezone", JInt 5)])])) in
  get_shop_timezone get "s.myshopify.com" "tok" "2025-10" = JInt 5 /\
  ~ is_str (get_shop_timezone get "s.myshopify.com" "tok" "2025-10").
Proof.
  cbv zeta. split; [reflexivity|].
  intros [s Hs]. vm_compute in Hs. discriminate.
Qed.

End ShopTzProofs.

Module CleanerIOProofs.
Import CleanerIO.

Lemma raw_path_insert_csv `{L : PyLib} (env : Env) (fs : gmap path string) (v : string) :
  raw_path env (<[clean_csv_path env := v]> fs) = raw_path env fs.
Proof.
  unfold raw_path, clean_csv_path.
  rewrite lookup_insert_ne; [reflexivity|]. intros H. inversion H.
Qed.

Lemma lookup_raw_insert_csv `{L : PyLib} (env : Env) (fs : gmap path string) (v : string) :
  <[clean_csv_path env := v]> fs !! raw_path env fs = fs !! raw_path env fs.
Proof.
  unfold raw_path, clean_csv_path.
  destruct (fs !! (output_dir env, "raw_orders.json"));
    rewrite lookup_insert_ne; try reflexivity; intros H; inversion H.
Qed.

(** C8: with the timezone resolution fixed, a second run of the Normalizer
    on the file system left by the first (raw_orders.json unchanged) writes
    the same clean_orders.csv and reports the same outcome; in fact it
    leaves the file system exactly as the first run did. *)
Theorem cleaner_main_idempotent `{L : PyLib}
    (json_load : string -> option (list (list (string * json))))
    (to_csv : list FlatRow -> string) (env : Env) (tz_name : string) (fs : gmap path string) :
  let '(fs1, r1) := main json_load to_csv env tz_name fs in
  let '(fs2, r2) := main json_load to_csv env tz_name fs1 in
  fs2 !! clean_csv_path env = fs1 !! clean_csv_path env /\ r2 = r1 /\ fs2 = fs1.
Proof.
  unfold main.
  destruct (store_set env && token_set env) eqn:Ea; simpl; [|auto].
  destruct (outdir_ok env); simpl; [|auto].
  destruct (fs !! raw_path env fs) as [text|] eqn:Er; [|rewrite Er; auto].
  destruct (json_load text) as [orders|] eqn:Ej; [|rewrite Er, Ej; auto].
  destruct (clean orders tz_name) as [rows|] eqn:Ec; [|rewrite Er, Ej, Ec; auto].
  rewrite raw_path_insert_csv, lookup_raw_insert_csv, Er, Ej, Ec.
  rewrite insert_insert_eq. auto.
Qed.

End CleanerIOProofs.

(** Concrete raw_orders.json inputs. *)

Module MoneyBugs.
Import Inputs.

(** C2 (code defect): on [orders_missing_subtotal] the second order's
    subtotal cell is the NaN pandas fills for the missing key; parse_money
    passes NaN through, so its net_revenue is NaN instead of
    0.0 - 0.0 - 0.0. *)
Theorem net_revenue_missing_subtotal_nan :
  option_map (map (fun r => (order_id r, subtotal_price r, total_discounts r,
                             refunds_amount r, net_revenue r)))
    (clean (L:=demo_lib) orders_missing_subtotal "UTC") =
  Some [(CJ (JInt 1), Fin (1000 # 100), Fin 0, Fin 0, Fin (1000 # 100));
        (CJ (JInt 2), NaN, Fin 0, Fin 0, NaN)].
Proof. vm_compute. reflexivity. Qed.

(** C6 (code defect): on [orders_missing_price] the row of line item B
    has the NaN price pandas fills for the missing key, so price,
    line_gross and line_net are NaN instead of 0.0, 1 * 0.0 and
    1 * 0.0 - 0.0. *)
Theorem line_net_missing_price_nan :
  option_map (map (fun r => (sku r, quantity r, price r, line_discount r, line_net r)))
    (clean (L:=demo_lib) orders_missing_price "UTC") =
  Some [(CJ (JStr "A"), 2%Z, Fin (350 # 100), Fin 0, Fin (700 # 100));
        (CJ (JStr "B"), 1%Z, NaN, Fin 0, NaN)].
Proof. vm_compute. reflexivity. Qed.

End MoneyBugs.

Module SortLemmas.

Lemma insert_by_perm {A} (lt : A -> A -> bool) (x : A) (l : list A) :
  Permutation (insert_by lt x l) (x :: l).
Proof.
  induction l as [|y t IH]; simpl; [reflexivity|].
  destruct (lt x y); [reflexivity|].
  rewrite IH. apply perm_swap.
Qed.

Lemma sort_fold_perm {A} (lt : A -> A -> bool) (l acc : list A) :
  Permutation (fold_left (fun acc x => insert_by lt x acc) l acc) (l ++ acc).
Proof.
  revert acc. induction l as [|x t IH]; intros acc; simpl; [reflexivity|].
  rewrite IH, insert_by_perm. symmetry. apply Permutation_middle.
Qed.

Lemma sort_stable_perm {A} (lt : A -> A -> bool) (l : list A) :
  Permutation (sort_stable lt l) l.
Proof.
  unfold sort_stable. rewrite sort_fold_perm. rewrite app_nil_r. reflexivity.
Qed.

End SortLemmas.

Module FlattenProofs.
Import SortLemmas FlattenSpec.

Section S.
Context `{L : PyLib}.

Lemma explode_cell_list_length (l : list json) :
  length (explode_cell (CJ (JList l))) = Nat.max 1 (length l).
Proof. destruct l; simpl; [reflexivity|]. rewrite length_map. lia. Qed.

Lemma flat_row_order_fields lrecs (o : OrderRow) (it : cell) :
  order_fields (flat_row lrecs (o, it)) = order_fields_of o.
Proof. reflexivity. Qed.

Lemma flat_row_empty lrecs (o : OrderRow) :
  empty_line_row (flat_row lrecs (o, CNaN)) /\
  price (flat_row lrecs (o, CNaN)) = if has_col lrecs "price" then NaN else Fin 0.
Proof.
  unfold empty_line_row, flat_row, col_cell; simpl.
  destruct (has_col lrecs "sku"), (has_col lrecs "title"), (has_col lrecs "variant_id"),
    (has_col lrecs "product_id"), (has_col lrecs "quantity"), (has_col lrecs "price");
    simpl; repeat split; auto.
Qed.

Lemma order_row_items recs tz (r : list (string * json)) (o : OrderRow) :
  order_row recs tz r = Some o -> o_items o = col_cell recs "line_items" r.
Proof.
  unfold order_row.
  destruct (sum_shipping (col_cell recs "shipping_lines" r)),
    (sum_refunds (col_cell recs "refunds" r)); intros H; inversion H; reflexivity.
Qed.

Lemma flat_rows_concat (rows : list OrderRow) :
  flat_rows rows =
  concat (map (fun o => map (flat_row (map (fun p => li_rec p.2) (explode rows)))
                            (map (pair o) (explode_cell (o_items o)))) rows).
Proof.
  unfold flat_rows. generalize (map (fun p => li_rec p.2) (explode rows)) as lrecs.
  intros lrecs. unfold explode.
  induction rows as [|o t IH]; simpl; [reflexivity|].
  rewrite map_app, IH. reflexivity.
Qed.

End S.

(** C1 (amended): [clean] succeeds only when [orders_df] is built, and
    then every order of the input yields its own block of rows of
    clean_orders.csv (up to the final sort): as many rows as line items
    when the list has N >= 1 items, one row when it is empty.  Every row
    carries the order-level fields computed for that order by [order_row]
    in [orders_df].  The row of an empty list has null sku, title,
    variant_id and product_id and quantity 0; its price is 0.0 when no line
    item of the input has a price key, and NaN (parse_money's pass-through
    of the NaN cell, the defect of C6) when one has. *)
Theorem flatten_rows_per_order `{L : PyLib} (orders : list (list (string * json)))
    (tz_name : string) (out : list FlatRow) :
  clean orders tz_name = Some out ->
  exists (rows : list OrderRow) (blocks : list (list FlatRow)),
    orders_frame orders tz_name = Some rows /\
    Permutation out (concat blocks) /\
    Forall2 (fun ord o =>
               order_row (map normalise_record orders) tz_name (normalise_record ord) = Some o /\
               o_items o = col_cell (map normalise_record orders) "line_items"
                             (normalise_record ord)) orders rows /\
    Forall2 (fun o blk =>
               (forall l, o_items o = CJ (JList l) -> length blk = Nat.max 1 (length l)) /\
               Forall (fun r => order_fields r = order_fields_of o) blk /\
               (o_items o = CJ (JList []) ->
                Forall (fun r => empty_line_row r /\
                                 price r = if has_col (map (fun p => li_rec p.2) (explode rows)) "price"
                                           then NaN else Fin 0) blk))
            rows blocks.
Proof.
  intros Hc. unfold clean in Hc.
  destruct (orders_frame orders tz_name) as [rows|] eqn:Ef; simpl in Hc; [|discriminate].
  injection Hc as <-.
  exists rows.
  eexists. split; [reflexivity|].
  split; [rewrite sort_stable_perm, flat_rows_concat; reflexivity|].
  split.
  - unfold orders_frame in Ef.
    destruct (mapM (order_row (map normalise_record orders) tz_name)
                   (map normalise_record orders)) as [rows'|] eqn:Em; simpl in Ef; [|discriminate].
    destruct (dt_ok (map o_created_local rows')); [|discriminate].
    injection Ef as <-.
    apply mapM_Some in Em. revert Em.
    generalize (map normalise_record orders) at 1 3 4 as recs. intros recs. revert rows'.
    induction orders as [|ord t IH]; intros rows Em; inversion Em; subst; constructor.
    + split; [assumption|]. apply order_row_items with (tz := tz_name). assumption.
    + apply IH. assumption.
  - generalize (map (fun p => li_rec p.2) (explode rows)) as lrecs. intros lrecs.
    clear Ef. induction rows as [|o t IH]; simpl; constructor; [|exact IH].
    split; [|split].
    + intros l Hl. rewrite !length_map, Hl. apply explode_cell_list_length.
    + apply Forall_forall. intros r Hr. apply list_elem_of_In in Hr.
      apply in_map_iff in Hr as [[o' it] [<- Hin]].
      apply in_map_iff in Hin as [it' [Heq _]]. injection Heq as <- <-.
      apply flat_row_order_fields.
    + intros He. rewrite He. simpl. constructor; [apply flat_row_empty | constructor].
Qed.

(** C1: the row of an order with an empty line-item list has price 0.0, not
    null, when no line item of the input has a price key (the li.price
    column is backfilled with None and parse_money(None) is 0.0). *)
Lemma empty_order_price_zero :
  option_map (map (fun r => (sku r, quantity r, price r)))
    (clean (L:=demo_lib) Inputs.orders_one_empty "UTC") =
  Some [(CJ JNull, 0%Z, Fin 0)].
Proof. vm_compute. reflexivity. Qed.

End FlattenProofs.

Module FlattenWitness.
Import FlattenSpec.

Lemma flatten_rows_per_order_witness :
  clean (L:=demo_lib) Inputs.orders_mixed "UTC" = Some Inputs.mixed_out /\
  exists (rows : list OrderRow) (blocks : list (list FlatRow)),
    orders_frame (L:=demo_lib) Inputs.orders_mixed "UTC" = Some rows /\
    Permutation Inputs.mixed_out (concat blocks) /\
    Forall2 (fun ord o =>
               order_row (map normalise_record Inputs.orders_mixed) "UTC" (normalise_record ord) = Some o /\
               o_items o = col_cell (map normalise_record Inputs.orders_mixed) "line_items"
                             (normalise_record ord)) Inputs.orders_mixed rows /\
    Forall2 (fun o blk =>
               (forall l, o_items o = CJ (JList l) -> length blk = Nat.max 1 (length l)) /\
               Forall (fun r => order_fields r = order_fields_of o) blk /\
               (o_items o = CJ (JList []) ->
                Forall (fun r => empty_line_row r /\
                                 price r = if has_col (map (fun p => li_rec p.2) (explode rows)) "price"
                                           then NaN else Fin 0) blk))
            rows blocks.
Proof.
  split; [reflexivity|].
  apply (FlattenProofs.flatten_rows_per_order (L:=demo_lib) Inputs.orders_mixed "UTC").
  reflexivity.
Defined.

End FlattenWitness.

Module RankLemmas.
Import SortLemmas ReporterSpec.







Lemma sorted_map {A B} (R' : A -> A -> Prop) (R : B -> B -> Prop) (f : A -> B) (l : list A) :
  (forall x y, R' x y -> R (f x) (f y)) -> Sorted R' l -> Sorted R (map f l).
Proof.
  intros HR. induction 1 as [|x t _ IH Hhd]; simpl; constructor; auto.
  destruct Hhd; simpl; constructor; auto.
Qed.

Lemma insert_by_sorted {A} (lt : A -> A -> bool)
    (Hasym : forall a b, lt a b = true -> lt b a = false) (x : A) (l : list A) :
  Sorted (fun a b => lt b a = false) l -> Sorted (fun a b => lt b a = false) (insert_by lt x l).
Proof.
  induction 1 as [|y t Ht IH Hhd]; simpl.
  - repeat constructor.
  - destruct (lt x y) eqn:E.
    + constructor; [constructor; assumption|constructor; apply Hasym; assumption].
    + constructor; [exact IH|].
      destruct t as [|z t']; simpl.
      * constructor. exact E.
      * destruct (lt x z); constructor; [exact E|inversion Hhd; assumption].
Qed.

Lemma sort_fold_sorted {A} (lt : A -> A -> bool)
    (Hasym : forall a b, lt a b = true -> lt b a = false) (l acc : list A) :
  Sorted (fun a b => lt b a = false) acc ->
  Sorted (fun a b => lt b a = false) (fold_left (fun acc x => insert_by lt x acc) l acc).
Proof.
  revert acc; induction l as [|x t IH]; intros acc H; simpl; [exact H|].
  apply IH, insert_by_sorted; assumption.
Qed.

Lemma Qlt_b_asym (a b : Q) : Qlt_b a b = true -> Qlt_b b a = false.
Proof.
  unfold Qlt_b. intros H.
  destruct (Qle_bool b a) eqn:E; [discriminate|].
  assert (Hab : (a <= b)%Q).
  { apply Qlt_le_weak, Qnot_le_lt. intros Hba. apply Qle_bool_iff in Hba. congruence. }
  apply Qle_bool_iff in Hab. rewrite Hab. reflexivity.
Qed.


End RankLemmas.

Module ProductLemmas.
Import SortLemmas RepeatSpec.

Lemma Forall_perm {A} (P : A -> Prop) (l l' : list A) :
  Permutation l l' -> List.Forall P l' -> List.Forall P l.
Proof.
  induction 1 as [|x l l' _ IH|x y l|l l' l'' _ IH1 _ IH2]; intros H.
  - exact H.
  - inversion H; subst. constructor; auto.
  - inversion H as [|? ? Hy H1]; subst. inversion H1; subst. repeat constructor; auto.
  - auto.
Qed.

Lemma isna_no_key (c : cell) : cell_isna c = true -> key_of_cell c = None.
Proof. destruct c as [j|]; [destruct j|]; simpl; congruence. Qed.

Section S.
Context `{L : PyLib}.

Lemma group_by_product_fold (df : list FlatRow) :
  group_by_product df = sort_stable (fun a b => pkey_lt a.1 b.1) (fold_left product_step df []).
Proof. reflexivity. Qed.

Lemma product_key_sku (r : FlatRow) (k : pykey * pykey) :
  product_key r = Some k -> cell_isna (sku r) = false.
Proof.
  unfold product_key. destruct (sku r) as [j|]; [destruct j|]; simpl;
    try discriminate; reflexivity.
Qed.

Lemma fold_product_filter (df : list FlatRow) acc :
  fold_left product_step (List.filter (fun r => negb (cell_isna (sku r))) df) acc =
  fold_left product_step df acc.
Proof.
  revert acc. induction df as [|r t IH]; intros acc; [reflexivity|].
  cbn [List.filter fold_left].
  destruct (cell_isna (sku r)) eqn:E; cbn [negb fold_left]; rewrite IH; [|reflexivity].
  replace (product_step acc r) with acc; [reflexivity|].
  unfold product_step, product_key. rewrite (isna_no_key _ E). reflexivity.
Qed.

Lemma pgroup_insert_forall (P : FlatRow -> Prop) k r gs :
  P r -> List.Forall (fun g => List.Forall P g.2) gs ->
  List.Forall (fun g => List.Forall P g.2) (pgroup_insert k r gs).
Proof.
  intros Hr. induction gs as [|[k' rs] t IH]; intros H; simpl.
  - repeat constructor. exact Hr.
  - inversion H; subst.
    destruct (key_eqb k'.1 k.1 && key_eqb k'.2 k.2); constructor; simpl in *; auto.
    apply List.Forall_app. split; [assumption|repeat constructor; assumption].
Qed.

Lemma fold_product_members (df : list FlatRow) acc :
  List.Forall (fun g => List.Forall (fun r => cell_isna (sku r) = false) g.2) acc ->
  List.Forall (fun g => List.Forall (fun r => cell_isna (sku r) = false) g.2)
    (fold_left product_step df acc).
Proof.
  revert acc. induction df as [|r t IH]; intros acc H; simpl; [exact H|].
  apply IH. unfold product_step.
  destruct (product_key r) eqn:E; [|exact H].
  apply pgroup_insert_forall; [eapply product_key_sku; eassumption|exact H].
Qed.

End S.
End ProductLemmas.

Module ReporterProofs.
Import SortLemmas ReporterSpec RankLemmas ProductLemmas.



(** C5 (amended): rows with a null sku stay in clean_orders.csv (the output
    is a reordering of all flattened rows), but no product group contains
    one: groupby(["sku", "title"]) drops them, so both rankings are the same
    with or without those rows. *)
Theorem null_sku_rows_kept_not_grouped `{L : PyLib} (orders : list (list (string * json)))
    (tz_name : string) (out : list FlatRow) :
  clean orders tz_name = Some out ->
  (exists rows, orders_frame orders tz_name = Some rows /\ Permutation out (flat_rows rows)) /\
  List.Forall (fun g => List.Forall (fun r => cell_isna (sku r) = false) g.2)
    (group_by_product out) /\
  (forall argsort : list Q -> list nat,
     products_units argsort out =
       products_units argsort (List.filter (fun r => negb (cell_isna (sku r))) out) /\
     products_rev argsort out =
       products_rev argsort (List.filter (fun r => negb (cell_isna (sku r))) out)).
Proof.
  intros Hc. split; [|split].
  - unfold clean in Hc. destruct (orders_frame orders tz_name) as [rows|]; [|discriminate].
    simpl in Hc. injection Hc as <-. exists rows. split; [reflexivity|].
    apply sort_stable_perm.
  - rewrite group_by_product_fold.
    eapply Forall_perm; [apply sort_stable_perm|].
    apply fold_product_members. constructor.
  - intros argsort. unfold products_units, products_rev, top_products.
    rewrite !group_by_product_fold, fold_product_filter. split; reflexivity.
Qed.

(** C5: an order with a line item without sku: the row is kept (sku NaN),
    but both rankings hold only the group of the other item. *)
Lemma null_sku_row_not_ranked :
  option_map (fun out => (map sku out, products_units NpSort.aquicksort out,
                          products_rev NpSort.aquicksort out))
    (clean (L:=demo_lib) Inputs.orders_null_sku "UTC") =
  Some ([CJ (JStr "A"); CNaN], [((KStr "A", KStr "Hat"), 2%Q)], [((KStr "A", KStr "Hat"), 8%Q)]).
Proof. vm_compute. reflexivity. Qed.

End ReporterProofs.

Module ReporterWitness.
Import ReporterSpec.


Lemma null_sku_rows_kept_not_grouped_witness :
  clean (L:=demo_lib) Inputs.orders_null_sku "UTC" = Some Inputs.null_sku_out /\
  (exists rows, orders_frame (L:=demo_lib) Inputs.orders_null_sku "UTC" = Some rows /\
                Permutation Inputs.null_sku_out (flat_rows rows)) /\
  List.Forall (fun g => List.Forall (fun r => cell_isna (sku r) = false) g.2)
    (group_by_product Inputs.null_sku_out) /\
  (forall argsort : list Q -> list nat,
     products_units argsort Inputs.null_sku_out =
       products_units argsort (List.filter (fun r => negb (cell_isna (sku r))) Inputs.null_sku_out) /\
     products_rev argsort Inputs.null_sku_out =
       products_rev argsort (List.filter (fun r => negb (cell_isna (sku r))) Inputs.null_sku_out)).
Proof.
  split; [reflexivity|].
  apply (ReporterProofs.null_sku_rows_kept_not_grouped (L:=demo_lib) Inputs.orders_null_sku "UTC").
  reflexivity.
Defined.

End ReporterWitness.

Module RepeatLemmas.
Import RepeatSpec.

Lemma key_eqb_sym (a b : pykey) : key_eqb a b = key_eqb b a.
Proof.
  destruct a as [x|x], b as [y|y]; simpl; try reflexivity.
  - destruct (Qeq_bool x y) eqn:E; symmetry.
    + apply Qeq_bool_iff, Qeq_sym, Qeq_bool_iff. exact E.
    + apply not_true_iff_false. intros E2.
      apply Qeq_bool_iff, Qeq_sym, Qeq_bool_iff in E2. congruence.
  - apply String.eqb_sym.
Qed.

Lemma key_eqb_trans (a b c : pykey) :
  key_eqb a b = true -> key_eqb b c = true -> key_eqb a c = true.
Proof.
  destruct a as [x|x], b as [y|y], c as [z|z]; simpl; try discriminate.
  - rewrite !Qeq_bool_iff. apply Qeq_trans.
  - rewrite !String.eqb_eq. congruence.
Qed.

Lemma group_get_insert {A} (k0 k : pykey) (v : A) (gs : list (pykey * list A)) :
  group_get (group_insert k0 v gs) k =
  if key_eqb k0 k then Some (default [] (group_get gs k) ++ [v]) else group_get gs k.
Proof.
  induction gs as [|[k' vs] t IH]; simpl; [destruct (key_eqb k0 k); reflexivity|].
  destruct (key_eqb k' k0) eqn:E1; simpl.
  - destruct (key_eqb k0 k) eqn:E2.
    + rewrite (key_eqb_trans _ _ _ E1 E2). reflexivity.
    + destruct (key_eqb k' k) eqn:E3; [|reflexivity].
      rewrite key_eqb_sym in E1.
      rewrite (key_eqb_trans _ _ _ E1 E3) in E2. discriminate.
  - destruct (key_eqb k' k) eqn:E3.
    + destruct (key_eqb k0 k) eqn:E2; [|reflexivity].
      rewrite key_eqb_sym in E2.
      rewrite (key_eqb_trans _ _ _ E3 E2) in E1. discriminate.
    + exact IH.
Qed.

Lemma sel_app {A} (k : pykey) (l1 l2 : list (cell * A)) :
  sel k (l1 ++ l2) = sel k l1 ++ sel k l2.
Proof.
  induction l1 as [|[c v] t IH]; simpl; [reflexivity|].
  destruct (key_of_cell c); [destruct (key_eqb p k)|]; simpl; rewrite ?IH; reflexivity.
Qed.

Lemma groupby_fold_get {A} (kvs pre : list (cell * A)) (acc : list (pykey * list A)) :
  (forall k, group_get acc k = opt_nonempty (sel k pre)) ->
  forall k, group_get (fold_left (fun gs kv => match key_of_cell kv.1 with
                                               | Some k => group_insert k kv.2 gs
                                               | None => gs end) kvs acc) k =
            opt_nonempty (sel k (pre ++ kvs)).
Proof.
  revert pre acc. induction kvs as [|[c v] t IH]; intros pre acc H k; simpl.
  - rewrite app_nil_r. apply H.
  - replace (pre ++ (c, v) :: t) with ((pre ++ [(c, v)]) ++ t) by (rewrite <- app_assoc; reflexivity).
    apply IH. intros k'. rewrite sel_app. simpl.
    destruct (key_of_cell c) as [k0|]; [|rewrite app_nil_r; apply H].
    rewrite group_get_insert, H.
    destruct (key_eqb k0 k'); [|rewrite app_nil_r; reflexivity].
    destruct (sel k' pre); reflexivity.
Qed.

Lemma groupby_get {A} (keys : list cell) (vals : list A) (k : pykey) :
  group_get (groupby keys vals) k = opt_nonempty (sel k (combine keys vals)).
Proof. apply (groupby_fold_get _ []). reflexivity. Qed.

Lemma group_get_map {A B} (f : A -> B) (gs : list (pykey * A)) (k : pykey) :
  group_get (map (fun g => (g.1, f g.2)) gs) k = option_map f (group_get gs k).
Proof.
  induction gs as [|[k' v] t IH]; simpl; [reflexivity|].
  destruct (key_eqb k' k); [reflexivity|exact IH].
Qed.

Lemma sel_combine_map {B} (f g : B -> cell) (l : list B) (k : pykey) :
  sel k (combine (map f l) (map g l)) =
  omap (fun r => match key_of_cell (f r) with
                 | Some k' => if key_eqb k' k then Some (g r) else None
                 | None => None
                 end) l.
Proof.
  induction l as [|x t IH]; simpl; [reflexivity|].
  destruct (key_of_cell (f x)); [destruct (key_eqb p k)|]; simpl; rewrite IH; reflexivity.
Qed.

Lemma existsb_map' {A B} (f : B -> bool) (g : A -> B) (l : list A) :
  existsb f (map g l) = existsb (fun x => f (g x)) l.
Proof. induction l; simpl; congruence. Qed.

Lemma repeat_of_spec `{L : PyLib} (recs : list (list (string * json))) (r : list (string * json)) :
  repeat_of recs r = repeat_spec recs r.
Proof.
  unfold repeat_of, repeat_spec, tier1, orders_count_present, df_col'.
  rewrite existsb_map'.
  destruct (_ && _); [reflexivity|].
  destruct (has_col recs "customer.id"); [|reflexivity].
  destruct (key_of_cell (col_cell recs "customer.id" r)) as [k|]; [|reflexivity].
  unfold cust_counts, df_col'.
  rewrite group_get_map, groupby_get, sel_combine_map.
  fold (ids_with_customer recs k).
  destruct (ids_with_customer recs k); reflexivity.
Qed.

Lemma order_row_repeat `{L : PyLib} recs tz (r : list (string * json)) (o : OrderRow) :
  order_row recs tz r = Some o -> o_repeat o = repeat_of recs r.
Proof.
  unfold order_row.
  destruct (sum_shipping (col_cell recs "shipping_lines" r)),
    (sum_refunds (col_cell recs "refunds" r)); intros H; inversion H; reflexivity.
Qed.

Lemma orders_frame_rows `{L : PyLib} (orders : list (list (string * json))) tz rows :
  orders_frame orders tz = Some rows ->
  Forall2 (fun ord o => order_row (map normalise_record orders) tz (normalise_record ord) = Some o)
    orders rows.
Proof.
  unfold orders_frame.
  destruct (mapM _ _) as [rows'|] eqn:Em; simpl; [|discriminate].
  destruct (dt_ok _); [|discriminate]. intros H. injection H as <-.
  apply mapM_Some in Em. revert Em.
  generalize (map normalise_record orders) at 1 3 as recs. intros recs. revert rows'.
  induction orders as [|ord t IH]; intros rows Em; inversion Em; subst; constructor; auto.
Qed.

End RepeatLemmas.

Module RepeatProofs.
Import RepeatSpec RepeatLemmas.

(** C3: the flag of every order is computed over the whole order set by
    three tiers: when the lifetime order count is a column with a non-null
    value, count > 1 (an unparsable count is 0); else, when customer.id is a
    column, more than one distinct order id among the orders of the same
    customer (false for a missing customer id); else false.  On an order set
    without the count where customer 10 has two orders and customer 20 one,
    the flags are true, true, false. *)
Theorem repeat_flag_three_tiers `{L : PyLib} (orders : list (list (string * json)))
    (tz_name : string) (rows : list OrderRow) :
  orders_frame orders tz_name = Some rows ->
  Forall2 (fun ord o => o_repeat o = repeat_spec (map normalise_record orders) (normalise_record ord))
    orders rows /\
  (forall tz' rows', orders_frame Inputs.orders_ab tz' = Some rows' ->
                     map o_repeat rows' = [true; true; false]).
Proof.
  assert (Gen : forall orders tz rows, orders_frame orders tz = Some rows ->
    Forall2 (fun ord o => o_repeat o = repeat_spec (map normalise_record orders) (normalise_record ord))
      orders rows).
  { intros os tz rs H. apply orders_frame_rows in H.
    eapply Forall2_impl; [exact H|]. intros ord o Ho.
    rewrite (order_row_repeat _ _ _ _ Ho). apply repeat_of_spec. }
  intros H. split; [exact (Gen _ _ _ H)|].
  intros tz' rows' H'. apply Gen in H'.
  inversion H' as [|? o1 ? t1 E1 H1]; subst. inversion H1 as [|? o2 ? t2 E2 H2]; subst.
  inversion H2 as [|? o3 ? t3 E3 H3]; subst. inversion H3; subst.
  simpl. rewrite E1, E2, E3. reflexivity.
Qed.

End RepeatProofs.

Module RepeatWitness.
Import RepeatSpec.

Lemma repeat_flag_three_tiers_witness :
  orders_frame (L:=demo_lib) Inputs.orders_ab "UTC" = Some Inputs.ab_rows /\
  Forall2 (fun ord o => o_repeat o = repeat_spec (L:=demo_lib)
                                       (map normalise_record Inputs.orders_ab) (normalise_record ord))
    Inputs.orders_ab Inputs.ab_rows /\
  (forall tz' rows', orders_frame (L:=demo_lib) Inputs.orders_ab tz' = Some rows' ->
                     map o_repeat rows' = [true; true; false]).
Proof.
  split; [reflexivity|].
  apply (RepeatProofs.repeat_flag_three_tiers (L:=demo_lib) Inputs.orders_ab "UTC").
  reflexivity.
Defined.

End RepeatWitness.

Module RevenueLemmas.
Import SortLemmas RepeatSpec.



Section S.
Context `{L : PyLib}.







End S.
End RevenueLemmas.

Module RevenueProofs.
Import RepeatSpec RepeatLemmas RevenueLemmas.


End RevenueProofs.

Module RevenueWitness.
Import RepeatSpec.


End RevenueWitness.

Module MoneyProofs.
Import MoneySpec.

Section S.
Context `{L : PyLib}.

Lemma shipping_fold_none (l : list json) :
  fold_left (fun acc s =>
    match acc, get_field s "price" with
    | Some a, Some p => Some (fadd a (parse_money p))
    | _, _ => None
    end) l None = None.
Proof. induction l; simpl; auto. Qed.

Lemma shipping_fold (l : list json) (a : flt) :
  fold_left (fun acc s =>
    match acc, get_field s "price" with
    | Some a, Some p => Some (fadd a (parse_money p))
    | _, _ => None
    end) l (Some a) =
  if forallb is_obj l then Some (fold_left fadd (map price_of l) a) else None.
Proof.
  revert a; induction l as [|s t IH]; intros a; simpl; [reflexivity|].
  destruct s; simpl; try apply shipping_fold_none. apply IH.
Qed.

(** X1: [sum_shipping] raises (AttributeError) exactly when its argument is
    a list with an element that is not a dict; on a list of dicts it is the
    left-to-right float sum, from 0.0, of [parse_money] of their prices; on
    anything that is not a list it is 0.0. *)
Theorem sum_shipping_spec (c : cell) :
  sum_shipping c =
  match c with
  | CJ (JList l) =>
      if forallb is_obj l then Some (fold_left fadd (map price_of l) (Fin 0)) else None
  | _ => Some (Fin 0)
  end.
Proof.
  destruct c as [j|]; [|reflexivity].
  destruct j; try reflexivity. apply shipping_fold.
Qed.

Lemma add_txn_none (ts : list json) : fold_left add_txn ts None = None.
Proof. induction ts; simpl; auto. Qed.

Lemma add_txn_fold (ts : list json) (a : flt) :
  fold_left add_txn ts (Some a) =
  if forallb is_obj ts
  then Some (fold_left fadd (map txn_amount (List.filter is_refund ts)) a) else None.
Proof.
  revert a; induction ts as [|t ts IH]; intros a; simpl; [reflexivity|].
  destruct t; simpl; try apply add_txn_none.
  unfold add_txn at 1. simpl.
  destruct (py_get kv "kind") as [[]|]; simpl; try apply IH.
  destruct (String.eqb s "refund"); simpl; apply IH.
Qed.

Lemma refunds_fold_none (refs : list json) :
  fold_left (fun acc ref =>
    match acc, transactions_of ref with
    | Some a, Some ts => fold_left add_txn ts (Some a)
    | _, _ => None
    end) refs None = None.
Proof. induction refs; simpl; auto. Qed.

Lemma refunds_fold (refs : list json) (a : flt) :
  fold_left (fun acc ref =>
    match acc, transactions_of ref with
    | Some a, Some ts => fold_left add_txn ts (Some a)
    | _, _ => None
    end) refs (Some a) =
  match mapM transactions_of refs with
  | None => None
  | Some tss =>
      if forallb is_obj (concat tss)
      then Some (fold_left fadd (map txn_amount (List.filter is_refund (concat tss))) a)
      else None
  end.
Proof.
  revert a; induction refs as [|r refs IH]; intros a; simpl; [reflexivity|].
  destruct (transactions_of r) as [ts|] eqn:Er; simpl.
  - rewrite add_txn_fold.
    destruct (forallb is_obj ts) eqn:Ef.
    + rewrite IH. destruct (mapM transactions_of refs) as [tss|]; simpl; [|reflexivity].
      rewrite forallb_app, Ef. simpl.
      destruct (forallb is_obj (concat tss)); [|reflexivity].
      rewrite List.filter_app, map_app, fold_left_app. reflexivity.
    + rewrite refunds_fold_none.
      destruct (mapM transactions_of refs); simpl; [rewrite forallb_app, Ef|]; reflexivity.
  - apply refunds_fold_none.
Qed.

(** X2: [sum_refunds] on a list raises exactly when some refund entry is
    not a dict, or has a truthy "transactions" value that is not a list, or
    some transaction is not a dict; otherwise it is the float sum, from
    0.0, of [parse_money] of the amounts of the transactions whose kind is
    "refund", over all entries in order.  Anything that is not a list gives
    0.0. *)
Theorem sum_refunds_spec (c : cell) :
  sum_refunds c =
  match c with
  | CJ (JList refs) =>
      match mapM transactions_of refs with
      | None => None
      | Some tss =>
          if forallb is_obj (concat tss)
          then Some (fold_left fadd (map txn_amount (List.filter is_refund (concat tss))) (Fin 0))
          else None
      end
  | _ => Some (Fin 0)
  end.
Proof.
  destruct c as [j|]; [|reflexivity].
  destruct j; try reflexivity. apply refunds_fold.
Qed.

End S.
End MoneyProofs.

Module Tier2Proofs.
Import RepeatLemmas.

Lemma group_get_key_eqb {A} (gs : list (pykey * A)) (k1 k2 : pykey) :
  key_eqb k1 k2 = true -> group_get gs k1 = group_get gs k2.
Proof.
  intros H. induction gs as [|[k v] t IH]; simpl; [reflexivity|].
  destruct (key_eqb k k1) eqn:E1, (key_eqb k k2) eqn:E2; auto.
  - rewrite (key_eqb_trans _ _ _ E1 H) in E2. discriminate.
  - rewrite key_eqb_sym in H. rewrite (key_eqb_trans _ _ _ E2 H) in E1. discriminate.
Qed.

(** X4: when the lifetime order count is not used (the column is absent or
    all null), two orders whose customer ids are equal get the same
    is_repeat_customer flag. *)
Theorem repeat_same_customer `{L : PyLib} (recs : list (list (string * json)))
    (r1 r2 : list (string * json)) (k1 k2 : pykey) :
  tier1 recs = false ->
  key_of_cell (col_cell recs "customer.id" r1) = Some k1 ->
  key_of_cell (col_cell recs "customer.id" r2) = Some k2 ->
  key_eqb k1 k2 = true ->
  repeat_of recs r1 = repeat_of recs r2.
Proof.
  intros Ht H1 H2 Hk. unfold repeat_of. rewrite Ht, H1, H2.
  rewrite (group_get_key_eqb _ _ _ Hk). reflexivity.
Qed.

End Tier2Proofs.

Module Tier2Witness.
Import Tier2Proofs.

Lemma repeat_same_customer_witness :
  let recs := map normalise_record Inputs.orders_ab in
  repeat_of (L:=demo_lib) recs (nth 0 recs []) = repeat_of (L:=demo_lib) recs (nth 1 recs []).
Proof.
  cbv zeta.
  apply (repeat_same_customer (L:=demo_lib) _ _ _ (KNum 10) (KNum 10));
    vm_compute; reflexivity.
Defined.

End Tier2Witness.

Module DedupProofs.
Import DedupSpec.

Section S.
Context `{L : PyLib}.

Lemma okey_eqb_refl (k : option pykey) : okey_eqb k k = true.
Proof.
  destruct k as [[q|s]|]; simpl; [apply Qeq_bool_iff; reflexivity|apply String.eqb_refl|reflexivity].
Qed.

Lemma okey_eqb_trans (a b c : option pykey) :
  okey_eqb a b = true -> okey_eqb b c = true -> okey_eqb a c = true.
Proof.
  destruct a, b, c; simpl; try discriminate; auto. apply RepeatLemmas.key_eqb_trans.
Qed.

Lemma fold_first_new (l acc : list FlatRow) :
  rev (fold_left (fun acc r =>
         if existsb (fun r' => okey_eqb (key_of_cell (order_id r')) (key_of_cell (order_id r))) acc
         then acc else r :: acc) l acc) = rev acc ++ first_new acc l.
Proof.
  revert acc; induction l as [|r t IH]; intros acc; simpl; [rewrite app_nil_r; reflexivity|].
  destruct (existsb _ acc); rewrite IH; [reflexivity|].
  simpl. rewrite <- app_assoc. reflexivity.
Qed.

Local Abbreviation same_id a b := (okey_eqb (key_of_cell (order_id a)) (key_of_cell (order_id b))).

Lemma first_new_sublist (seen l : list FlatRow) : first_new seen l `sublist_of` l.
Proof.
  revert seen; induction l as [|r t IH]; intros seen; simpl; [constructor|].
  destruct (existsb _ seen); [apply sublist_cons|apply sublist_skip]; apply IH.
Qed.

Lemma first_new_fresh (seen l : list FlatRow) (x : FlatRow) :
  In x (first_new seen l) -> existsb (fun s => same_id s x) seen = false.
Proof.
  revert seen; induction l as [|r t IH]; intros seen; simpl; [tauto|].
  destruct (existsb (fun r' => same_id r' r) seen) eqn:E; [apply IH|].
  intros [<-|Hin]; [exact E|].
  apply IH in Hin. simpl in Hin. apply orb_false_iff in Hin. apply Hin.
Qed.

Lemma first_new_distinct (seen l : list FlatRow) :
  ForallOrdPairs (fun a b => same_id a b = false) (first_new seen l).
Proof.
  revert seen; induction l as [|r t IH]; intros seen; simpl; [constructor|].
  destruct (existsb _ seen); [apply IH|].
  constructor; [|apply IH].
  apply List.Forall_forall. intros y Hy.
  apply first_new_fresh in Hy. simpl in Hy. apply orb_false_iff in Hy. apply Hy.
Qed.

Lemma first_new_cover (seen l : list FlatRow) (r : FlatRow) :
  In r l ->
  (exists s, In s seen /\ same_id s r = true) \/
  (exists r', In r' (first_new seen l) /\ same_id r' r = true).
Proof.
  revert seen; induction l as [|x t IH]; intros seen Hr; simpl in *; [tauto|].
  destruct (existsb (fun r' => same_id r' x) seen) eqn:E.
  - destruct Hr as [<-|Hr]; [|apply IH; exact Hr].
    left. apply existsb_exists in E. exact E.
  - destruct Hr as [<-|Hr].
    + right. exists x. split; [left; reflexivity|apply okey_eqb_refl].
    + destruct (IH (x :: seen) Hr) as [[s [[<-|Hs] Hsr]]|[r' [Hr' Hrr]]].
      * right. exists x. split; [left; reflexivity|exact Hsr].
      * left. exists s. auto.
      * right. exists r'. split; [right; exact Hr'|exact Hrr].
Qed.

Lemma first_new_first (seen l : list FlatRow) (r : FlatRow) :
  In r (first_new seen l) ->
  exists pre post, l = pre ++ r :: post /\
    List.Forall (fun x => same_id x r = false) pre.
Proof.
  revert seen; induction l as [|x t IH]; intros seen Hr; simpl in *; [tauto|].
  destruct (existsb (fun r' => same_id r' x) seen) eqn:E.
  - destruct (IH seen Hr) as [pre [post [-> Hpre]]].
    exists (x :: pre), post. split; [reflexivity|]. constructor; [|exact Hpre].
    apply first_new_fresh in Hr.
    destruct (same_id x r) eqn:Exr; [|reflexivity].
    apply existsb_exists in E. destruct E as [s [Hs Hsx]].
    assert (Hsr := okey_eqb_trans _ _ _ Hsx Exr).
    assert (existsb (fun s => same_id s r) seen = true) by (apply existsb_exists; eauto).
    congruence.
  - destruct Hr as [<-|Hr].
    + exists [], t. split; [reflexivity|constructor].
    + destruct (IH (x :: seen) Hr) as [pre [post [-> Hpre]]].
      exists (x :: pre), post. split; [reflexivity|]. constructor; [|exact Hpre].
      apply first_new_fresh in Hr. simpl in Hr. apply orb_false_iff in Hr. apply Hr.
Qed.

Lemma drop_duplicates_first_new (df : list FlatRow) :
  drop_duplicates_id df = first_new [] df.
Proof. unfold drop_duplicates_id. rewrite fold_first_new. reflexivity. Qed.

(** X5: [drop_duplicates(subset=["order_id"])] keeps a subsequence of the
    rows, in their order, with pairwise different order ids (all missing
    ids count as one id); every row's id is represented by a kept row, and
    each kept row is the first row of the frame with its id. *)
Theorem drop_duplicates_id_spec (df : list FlatRow) :
  let out := drop_duplicates_id df in
  out `sublist_of` df /\
  ForallOrdPairs (fun a b => same_id a b = false) out /\
  (forall r, In r df -> exists r', In r' out /\ same_id r' r = true) /\
  (forall r, In r out -> exists pre post, df = pre ++ r :: post /\
     List.Forall (fun x => same_id x r = false) pre).
Proof.
  cbv zeta. rewrite drop_duplicates_first_new.
  split; [apply first_new_sublist|].
  split; [apply first_new_distinct|].
  split; [|apply first_new_first].
  intros r Hr. destruct (first_new_cover [] df r Hr) as [[s [[] _]]|H]; exact H.
Qed.

End S.
End DedupProofs.

Module SummaryProofs.

(** X6: the summary's repeat-customer rate lies between 0 and 1; with no
    orders the average order value and the rate are 0; the rate is 0
    exactly when no deduplicated order is flagged as a repeat customer. *)
Theorem summary_bounds `{L : PyLib} (df : list FlatRow) :
  let s := summary df in
  (0 <= repeat_rate s <= 1)%Q /\
  (total_orders s = 0%nat -> aov s = 0%Q /\ repeat_rate s = 0%Q) /\
  (repeat_rate s == 0 <->
   List.Forall (fun r => is_repeat_customer r = false) (drop_duplicates_id df))%Q.
Proof.
  cbv zeta. unfold summary. simpl.
  assert (Hf : List.Forall (fun r => is_repeat_customer r = false) (drop_duplicates_id df) <->
               length (List.filter is_repeat_customer (drop_duplicates_id df)) = 0%nat).
  { rewrite List.Forall_forall, List.length_zero_iff_nil.
    induction (drop_duplicates_id df) as [|x t IH]; simpl.
    - split; [reflexivity|intros _ y []].
    - destruct (is_repeat_customer x) eqn:Ex; simpl.
      + split; [intros H; rewrite (H x (or_introl eq_refl)) in Ex; discriminate|discriminate].
      + rewrite <- IH. split.
        * intros H y Hy. apply H. right. exact Hy.
        * intros H y [<-|Hy]; [exact Ex|apply H, Hy]. }
  rewrite Hf. clear Hf.
  set (orders := drop_duplicates_id df).
  set (n := length orders).
  set (a := length (List.filter is_repeat_customer orders)).
  assert (Ha : (a <= n)%nat) by (unfold a, n; apply List.filter_length_le).
  destruct (Nat.eqb_spec n 0) as [Hn|Hn].
  - split; [split; discriminate|]. split; [auto|].
    split; [intros _; lia|intros _; reflexivity].
  - assert (Hpos : (0 < inject_Z (Z.of_nat n))%Q).
    { unfold Qlt. simpl. lia. }
    split; [split|split; [intros H; contradiction|]].
    + apply Qle_shift_div_l; [exact Hpos|]. rewrite Qmult_0_l.
      unfold Qle. simpl. lia.
    + apply Qle_shift_div_r; [exact Hpos|]. rewrite Qmult_1_l.
      unfold Qle. simpl. lia.
    + split.
      * intros H. unfold Qdiv, Qeq in H. simpl in H. unfold Qinv in H.
        destruct (inject_Z (Z.of_nat n)) as [qn qd] eqn:Eq.
        unfold inject_Z in Eq. injection Eq as <- <-. simpl in H.
        destruct (Z.of_nat n) eqn:Ez; [lia| |lia]. simpl in H. lia.
      * intros H. rewrite H. reflexivity.
Qed.

End SummaryProofs.

Module DailyProofs.
Import SortLemmas RankLemmas.

Lemma FOP_perm {A} (R : A -> A -> Prop) (Hsym : forall a b, R a b -> R b a) (l l' : list A) :
  Permutation l l' -> ForallOrdPairs R l -> ForallOrdPairs R l'.
Proof.
  induction 1 as [|x l l' Hp IH|x y l|l l' l'' _ IH1 _ IH2]; intros H.
  - exact H.
  - inversion H; subst. constructor; [|auto].
    apply (ProductLemmas.Forall_perm _ l' l); [symmetry; exact Hp|assumption].
  - inversion H as [|? ? Hy H1]; subst. inversion H1 as [|? ? Hx H2]; subst.
    inversion Hy; subst.
    constructor; [constructor; auto|constructor; auto].
  - auto.
Qed.

Lemma FOP_app_one {A} (R : A -> A -> Prop) (l : list A) (a : A) :
  ForallOrdPairs R l -> List.Forall (fun x => R x a) l -> ForallOrdPairs R (l ++ [a]).
Proof.
  induction l as [|x t IH]; simpl; intros H Hf.
  - repeat constructor.
  - inversion H; subst. inversion Hf; subst. constructor; [|auto].
    apply List.Forall_app. split; [assumption|repeat constructor; assumption].
Qed.

Lemma existsb_false_Forall {A} (f : A -> bool) (l : list A) :
  existsb f l = false -> List.Forall (fun x => f x = false) l.
Proof.
  induction l as [|x t IH]; simpl; intros H; constructor;
    apply orb_false_iff in H; [apply H|apply IH, H].
Qed.

Section S.
Context `{L : PyLib}.

Lemma date_group_insert_keys (d : Date) (v : flt) (gs : list (Date * list flt)) :
  map fst (date_group_insert d v gs) =
  if existsb (fun k => date_eqb k d) (map fst gs) then map fst gs else map fst gs ++ [d].
Proof.
  induction gs as [|[d' vs] t IH]; simpl; [reflexivity|].
  destruct (date_eqb d' d); simpl; [reflexivity|].
  rewrite IH. destruct (existsb _ _); reflexivity.
Qed.

Hypothesis date_eqb_refl : forall d, date_eqb d d = true.

Lemma gbd_keys_distinct (rows : list FlatRow) (acc : list (Date * list flt)) :
  ForallOrdPairs (fun a b => date_eqb a b = false) (map fst acc) ->
  ForallOrdPairs (fun a b => date_eqb a b = false)
    (map fst (fold_left (fun gs r => match order_date r with
                                     | Some d => date_group_insert d (net_revenue r) gs
                                     | None => gs end) rows acc)).
Proof.
  revert acc; induction rows as [|r t IH]; intros acc H; simpl; [exact H|].
  apply IH. destruct (order_date r) as [d|]; [|exact H].
  rewrite date_group_insert_keys.
  destruct (existsb _ _) eqn:E; [exact H|].
  apply FOP_app_one; [exact H|]. apply existsb_false_Forall. exact E.
Qed.

Lemma gbd_keys_mono (rows : list FlatRow) (acc : list (Date * list flt)) (k : Date) :
  In k (map fst acc) ->
  In k (map fst (fold_left (fun gs r => match order_date r with
                                        | Some d => date_group_insert d (net_revenue r) gs
                                        | None => gs end) rows acc)).
Proof.
  revert acc; induction rows as [|r t IH]; intros acc H; simpl; [exact H|].
  apply IH. destruct (order_date r) as [d|]; [|exact H].
  rewrite date_group_insert_keys.
  destruct (existsb _ _); [exact H|]. apply in_or_app. left. exact H.
Qed.

Lemma gbd_keys_cover (rows : list FlatRow) (acc : list (Date * list flt)) (r : FlatRow) (d : Date) :
  In r rows -> order_date r = Some d ->
  exists k, In k (map fst (fold_left (fun gs r => match order_date r with
                                        | Some d => date_group_insert d (net_revenue r) gs
                                        | None => gs end) rows acc)) /\ date_eqb k d = true.
Proof.
  revert acc; induction rows as [|x t IH]; intros acc Hr Hd; simpl in *; [tauto|].
  destruct Hr as [->|Hr]; [|apply IH; assumption].
  rewrite Hd.
  set (acc1 := date_group_insert d (net_revenue r) acc).
  assert (Hk : exists k, In k (map fst acc1) /\ date_eqb k d = true).
  { unfold acc1. rewrite date_group_insert_keys.
    destruct (existsb (fun k => date_eqb k d) (map fst acc)) eqn:E.
    - apply existsb_exists in E. exact E.
    - exists d. split; [apply in_or_app; right; left; reflexivity|apply date_eqb_refl]. }
  destruct Hk as [k [Hk Hkd]]. exists k. split; [apply gbd_keys_mono; exact Hk|exact Hkd].
Qed.

Lemma gbd_keys_origin (rows : list FlatRow) (acc : list (Date * list flt)) (k : Date) :
  In k (map fst (fold_left (fun gs r => match order_date r with
                                        | Some d => date_group_insert d (net_revenue r) gs
                                        | None => gs end) rows acc)) ->
  In k (map fst acc) \/ exists r, In r rows /\ order_date r = Some k.
Proof.
  revert acc; induction rows as [|x t IH]; intros acc H; simpl in *; [left; exact H|].
  destruct (IH _ H) as [Hk|[r [Hr Hrk]]]; [|right; exists r; auto].
  destruct (order_date x) as [d|] eqn:Ed; [|left; exact Hk].
  rewrite date_group_insert_keys in Hk.
  destruct (existsb _ _); [left; exact Hk|].
  apply in_app_or in Hk. destruct Hk as [Hk|[<-|[]]]; [left; exact Hk|].
  right. exists x. auto.
Qed.

Hypothesis date_eqb_sym : forall a b, date_eqb a b = date_eqb b a.
Hypothesis date_lt_asym : forall a b, date_lt a b = true -> date_lt b a = false.

(** X7: given a date equality that is reflexive and symmetric and a strict
    order on dates, the daily table has one row per order date: its dates
    are pairwise different and in non-decreasing order, every dated
    (deduplicated) order has its date in the table, and every date of the
    table is the date of some order. *)
Theorem daily_one_row_per_date (df : list FlatRow) :
  let ds := map fst (daily df) in
  ForallOrdPairs (fun a b => date_eqb a b = false) ds /\
  Sorted (fun a b => date_lt b a = false) ds /\
  (forall r d, In r (drop_duplicates_id df) -> order_date r = Some d ->
     exists k, In k ds /\ date_eqb k d = true) /\
  (forall k, In k ds -> exists r, In r (drop_duplicates_id df) /\ order_date r = Some k).
Proof.
  cbv zeta. unfold daily.
  set (gs := group_by_date (drop_duplicates_id df)).
  set (tbl := map (fun g => (g.1, fsum_skipna g.2)) gs).
  assert (Hk : map fst tbl = map fst gs) by (unfold tbl; rewrite map_map; reflexivity).
  assert (Hp : Permutation (map fst (sort_stable (fun a b => date_lt a.1 b.1) tbl)) (map fst gs)).
  { rewrite <- Hk. apply Permutation_map, sort_stable_perm. }
  split; [|split; [|split]].
  - apply (FOP_perm _ (fun a b H => eq_trans (date_eqb_sym b a) H) (map fst gs)); [symmetry; exact Hp|].
    apply gbd_keys_distinct. constructor.
  - apply (sorted_map (fun a b => date_lt b.1 a.1 = false)); [auto|].
    apply sort_fold_sorted; [intros a b; apply date_lt_asym|constructor].
  - intros r d Hr Hd.
    destruct (gbd_keys_cover _ [] r d Hr Hd) as [k [Hin Hkd]].
    exists k. split; [|exact Hkd]. apply (Permutation_in _ (Permutation_sym Hp)). exact Hin.
  - intros k Hin. apply (Permutation_in _ Hp) in Hin.
    destruct (gbd_keys_origin _ [] k Hin) as [[]|H]. exact H.
Qed.

End S.
End DailyProofs.

Module DailyWitness.
Import DailyProofs.

Lemma daily_one_row_per_date_witness :
  ((forall d : Z, Z.eqb d d = true) /\ (forall a b : Z, Z.eqb a b = Z.eqb b a) /\
   (forall a b : Z, Z.ltb a b = true -> Z.ltb b a = false)) /\
  let ds := map fst (daily (L:=demo_lib) (default [] (clean (L:=demo_lib) Inputs.orders_undated "UTC"))) in
  ForallOrdPairs (fun a b => Z.eqb a b = false) ds /\
  Sorted (fun a b => Z.ltb b a = false) ds /\
  (forall r d, In r (drop_duplicates_id (L:=demo_lib) (default [] (clean (L:=demo_lib) Inputs.orders_undated "UTC"))) ->
     order_date r = Some d -> exists k, In k ds /\ Z.eqb k d = true) /\
  (forall k, In k ds -> exists r, In r (drop_duplicates_id (L:=demo_lib) (default [] (clean (L:=demo_lib) Inputs.orders_undated "UTC"))) /\
     order_date r = Some k).
Proof.
  assert (H1 : forall d : Z, Z.eqb d d = true) by (intros; apply Z.eqb_refl).
  assert (H2 : forall a b : Z, Z.eqb a b = Z.eqb b a) by (intros; apply Z.eqb_sym).
  assert (H3 : forall a b : Z, Z.ltb a b = true -> Z.ltb b a = false)
    by (intros a b H; apply Z.ltb_lt in H; apply Z.ltb_ge; lia).
  split; [auto|].
  exact (daily_one_row_per_date (L:=demo_lib) H1 H2 H3 (default [] (clean (L:=demo_lib) Inputs.orders_undated "UTC"))).
Defined.

End DailyWitness.

Module CleanOrderProofs.
Import SortLemmas RankLemmas.

Lemma string_ltb_asym (a b : string) : String.ltb a b = true -> String.ltb b a = false.
Proof.
  unfold String.ltb. rewrite (String.compare_antisym b a).
  destruct (String.compare a b); simpl; congruence.
Qed.

Lemma key_lt_asym (a b : option pykey) : key_lt a b = true -> key_lt b a = false.
Proof.
  destruct a as [[x|x]|], b as [[y|y]|]; simpl; try discriminate; try reflexivity.
  - apply Qlt_b_asym.
  - apply string_ltb_asym.
Qed.

Section S.
Context `{L : PyLib}.
Hypothesis date_lt_asym : forall a b, date_lt a b = true -> date_lt b a = false.
Hypothesis date_lt_neq : forall a b, date_lt a b = true -> date_eqb b a = false.

Lemma opt_date_lt_asym (a b : option Date) :
  opt_date_lt a b = true -> opt_date_lt b a = false /\ opt_date_eqb b a = false.
Proof.
  destruct a as [x|], b as [y|]; simpl; try discriminate; auto.
Qed.

Lemma opt_date_eqb_lt (a b : option Date) :
  opt_date_eqb a b = true -> opt_date_lt b a = false.
Proof.
  destruct a as [x|], b as [y|]; simpl; try discriminate; auto.
  intros H. destruct (date_lt y x) eqn:E; [|reflexivity].
  apply date_lt_neq in E. congruence.
Qed.

Lemma row_lt_asym (a b : FlatRow) : row_lt a b = true -> row_lt b a = false.
Proof.
  unfold row_lt. intros H. apply orb_true_iff in H. destruct H as [H|H].
  - destruct (opt_date_lt_asym _ _ H) as [-> ->]. reflexivity.
  - apply andb_true_iff in H. destruct H as [He Hk].
    rewrite (opt_date_eqb_lt _ _ He), (key_lt_asym _ _ Hk), andb_false_r. reflexivity.
Qed.

(** X8: given a strict order on dates that never relates equal dates,
    clean_orders.csv lists the exploded rows of orders_df, each once,
    ordered by order_date and then order_id (missing values last): no row
    is followed by a row that sorts strictly before it. *)
Theorem clean_sorted (orders : list (list (string * json))) (tz : string) (out : list FlatRow) :
  clean orders tz = Some out ->
  (exists rows, orders_frame orders tz = Some rows /\ Permutation out (flat_rows rows)) /\
  Sorted (fun a b => row_lt b a = false) out.
Proof.
  unfold clean. destruct (orders_frame orders tz) as [rows|] eqn:E; simpl; [|discriminate].
  intros H. injection H as <-. split.
  - exists rows. split; [reflexivity|apply sort_stable_perm].
  - apply sort_fold_sorted; [exact row_lt_asym|constructor].
Qed.

End S.
End CleanOrderProofs.

Module CleanOrderWitness.
Import CleanOrderProofs.

Lemma clean_sorted_witness :
  ((forall a b : Z, Z.ltb a b = true -> Z.ltb b a = false) /\
   (forall a b : Z, Z.ltb a b = true -> Z.eqb b a = false)) /\
  clean (L:=demo_lib) Inputs.orders_null_sku "UTC" = Some Inputs.null_sku_out /\
  (exists rows, orders_frame (L:=demo_lib) Inputs.orders_null_sku "UTC" = Some rows /\
     Permutation Inputs.null_sku_out (flat_rows rows)) /\
  Sorted (fun a b => row_lt (L:=demo_lib) b a = false) Inputs.null_sku_out.
Proof.
  assert (H1 : forall a b : Z, Z.ltb a b = true -> Z.ltb b a = false)
    by (intros a b H; apply Z.ltb_lt in H; apply Z.ltb_ge; lia).
  assert (H2 : forall a b : Z, Z.ltb a b = true -> Z.eqb b a = false)
    by (intros a b H; apply Z.ltb_lt in H; apply Z.eqb_neq; lia).
  assert (Hc : clean (L:=demo_lib) Inputs.orders_null_sku "UTC" = Some Inputs.null_sku_out)
    by reflexivity.
  split; [auto|]. split; [exact Hc|].
  exact (clean_sorted (L:=demo_lib) H1 H2 _ _ _ Hc).
Defined.

End CleanOrderWitness.

Module FetchProofs.
Import Puller PullerSpec.


Lemma page_ok_of_bool {A} (r : Response A) :
  Z.eqb (status_code r) 429 = false ->
  ((400 <=? status_code r)%Z && (status_code r <? 600)%Z) = false ->
  page_ok r.
Proof.
  intros H1 H2. split; [apply Z.eqb_neq; exact H1|].
  intros [Ha Hb]. apply Z.leb_le in Ha. apply Z.ltb_lt in Hb. rewrite Ha, Hb in H2. discriminate.
Qed.

Lemma fetch_loop_success {A} (py_int : string -> option Z) (rs : list (Response A))
    (url : string) (params : option Params) (acc : list A) (sent sent' : list Request) (res : list A) :
  fetch_loop py_int rs url params acc sent = (sent', inr res) ->
  exists pre r, firstn (length sent' - length sent) rs = pre ++ [r] /\
    length sent' = (length sent + S (length pre))%nat /\
    List.Forall (fun r => status_code r = 429%Z \/ page_ok r) pre /\
    page_ok r /\ last_page r /\
    res = acc ++ concat (map batch (List.filter (fun r => negb (Z.eqb (status_code r) 429)) (pre ++ [r]))).
Proof.
  revert url params acc sent; induction rs as [|r rs IH]; intros url params acc sent H; simpl in H;
    [discriminate|].
  destruct (Z.eqb (status_code r) 429) eqn:E429.
  - destruct (py_int (default "2" (retry_after r))) as [z|]; [|discriminate].
    destruct (z <? 0)%Z; [discriminate|].
    destruct (IH _ _ _ _ H) as [pre [r0 [Hf [Hl [Hpre [Hok [Hlast Hres]]]]]]].
    rewrite length_app in Hl. simpl in Hl.
    exists (r :: pre), r0.
    replace (length sent' - length sent)%nat with (S (length sent' - (length sent + 1)))%nat
      by (simpl in Hl; lia).
    rewrite length_app in Hf. simpl in Hf. simpl. rewrite Hf. split; [reflexivity|].
    split; [simpl; lia|]. split; [constructor; [left; apply Z.eqb_eq; exact E429|exact Hpre]|].
    split; [exact Hok|]. split; [exact Hlast|].
    rewrite Hres. simpl. rewrite E429. reflexivity.
  - destruct ((400 <=? status_code r)%Z && (status_code r <? 600)%Z) eqn:Eerr; [discriminate|].
    assert (Hok := page_ok_of_bool r E429 Eerr).
    destruct (extract_next_link (link r)) as [u|] eqn:El.
    + destruct (String.eqb u "") eqn:Eu.
      * injection H as <- <-. exists [], r. rewrite length_app. simpl.
        replace (length sent + 1 - length sent)%nat with 1%nat by lia.
        split; [reflexivity|]. split; [lia|]. split; [constructor|]. split; [exact Hok|].
        split; [unfold last_page; rewrite El; apply String.eqb_eq; exact Eu|].
        simpl. rewrite E429. simpl. rewrite app_nil_r. reflexivity.
      * destruct (IH _ _ _ _ H) as [pre [r0 [Hf [Hl [Hpre [Hok0 [Hlast Hres]]]]]]].
        rewrite length_app in Hl. simpl in Hl.
        exists (r :: pre), r0.
        replace (length sent' - length sent)%nat with (S (length sent' - (length sent + 1)))%nat
          by lia.
        rewrite length_app in Hf. simpl in Hf. simpl. rewrite Hf. split; [reflexivity|].
        split; [simpl; lia|]. split; [constructor; [right; exact Hok|exact Hpre]|].
        split; [exact Hok0|]. split; [exact Hlast|].
        rewrite Hres. simpl. rewrite E429. simpl. rewrite app_assoc. reflexivity.
    + injection H as <- <-. exists [], r. rewrite length_app. simpl.
      replace (length sent + 1 - length sent)%nat with 1%nat by lia.
      split; [reflexivity|]. split; [lia|]. split; [constructor|]. split; [exact Hok|].
      split; [unfold last_page; rewrite El; exact I|].
      simpl. rewrite E429. simpl. rewrite app_nil_r. reflexivity.
Qed.

(** X10: when [fetch_orders] returns orders, each request it sent consumed
    one response; those responses were 429s or successful pages, the last
    one a successful page without a next link, and the orders returned are
    the batches of the non-429 responses, concatenated in order. *)
Theorem fetch_orders_success {A} (py_int : string -> option Z) (store ver since : string)
    (rs : list (Response A)) (sent : list Request) (res : list A) :
  fetch_orders py_int store ver since rs = (sent, inr res) ->
  exists pre r, firstn (length sent) rs = pre ++ [r] /\
    length sent = S (length pre) /\
    List.Forall (fun r => status_code r = 429%Z \/ page_ok r) pre /\
    page_ok r /\ last_page r /\
    res = concat (map batch (List.filter (fun r => negb (Z.eqb (status_code r) 429)) (pre ++ [r]))).
Proof.
  unfold fetch_orders. intros H.
  destruct (fetch_loop_success _ _ _ _ _ _ _ _ H) as [pre [r [Hf [Hl Hrest]]]].
  exists pre, r. simpl in Hf, Hl. rewrite Nat.sub_0_r in Hf. auto.
Qed.

End FetchProofs.

Module FetchWitness.
Import Puller PullerSpec PullerDemo FetchProofs.


Lemma fetch_orders_success_witness :
  fetch_orders (fun _ => None) "s" "2025-10" "t" [p1; p2; p3] =
    ([ {| req_url := base_url "s" "2025-10"; req_params := Some (first_params "t") |};
       {| req_url := "https://s/admin/api/2025-10/orders.json?page_info=b"; req_params := None |};
       {| req_url := "https://s/admin/api/2025-10/orders.json?page_info=c"; req_params := None |} ],
     inr [1; 2; 3; 4; 5]) /\
  exists pre r, firstn 3 [p1; p2; p3] = pre ++ [r] /\ 3%nat = S (length pre) /\
    List.Forall (fun r => status_code r = 429%Z \/ page_ok r) pre /\
    page_ok r /\ last_page r /\
    [1; 2; 3; 4; 5] = concat (map batch (List.filter (fun r => negb (Z.eqb (status_code r) 429)) (pre ++ [r]))).
Proof.
  assert (H : fetch_orders (fun _ => None) "s" "2025-10" "t" [p1; p2; p3] =
    ([ {| req_url := base_url "s" "2025-10"; req_params := Some (first_params "t") |};
       {| req_url := "https://s/admin/api/2025-10/orders.json?page_info=b"; req_params := None |};
       {| req_url := "https://s/admin/api/2025-10/orders.json?page_info=c"; req_params := None |} ],
     inr [1; 2; 3; 4; 5])) by (vm_compute; reflexivity).
  split; [exact H|].
  exact (fetch_orders_success _ _ _ _ _ _ _ H).
Defined.

End FetchWitness.


(** ** order_puller.py: extract_next_link on a well-formed Link header *)

Module LinkProofs.
Import Puller LinkSpec.

Lemma sapp_cons (x : Ascii.ascii) (a b : string) : String x a +:+ b = String x (a +:+ b).
Proof. reflexivity. Qed.

Lemma sapp_nil_l (b : string) : "" +:+ b = b.
Proof. reflexivity. Qed.

Lemma sapp_assoc (a b c : string) : ((a +:+ b) +:+ c) = a +:+ (b +:+ c).
Proof. induction a as [|x a IH]; [reflexivity|rewrite !sapp_cons, IH; reflexivity]. Qed.

Lemma sapp_nil_r (a : string) : a +:+ "" = a.
Proof. induction a as [|x a IH]; [reflexivity|rewrite sapp_cons, IH; reflexivity]. Qed.

Lemma list_ascii_app (a b : string) :
  String.list_ascii_of_string (a +:+ b) = String.list_ascii_of_string a ++ String.list_ascii_of_string b.
Proof. induction a as [|x a IH]; [reflexivity|rewrite sapp_cons; simpl; rewrite IH; reflexivity]. Qed.

Lemma has_char_app (c : Ascii.ascii) (a b : string) :
  has_char c (a +:+ b) = has_char c a || has_char c b.
Proof. unfold has_char. rewrite list_ascii_app, existsb_app. reflexivity. Qed.

Lemma split_nosep (sep : Ascii.ascii) (s t cur : string) :
  has_char sep s = false -> split_go sep (s +:+ t) cur = split_go sep t (cur +:+ s).
Proof.
  revert cur; induction s as [|x s IH]; intros cur H; simpl.
  - rewrite sapp_nil_r. reflexivity.
  - unfold has_char in H. simpl in H. apply orb_false_iff in H. destruct H as [Hx Hs].
    rewrite Ascii.eqb_sym, Hx. rewrite IH by exact Hs. rewrite sapp_assoc. reflexivity.
Qed.

Lemma split_concat (p0 : string) (ps : list string) (cur : string) :
  has_char (Ascii.ascii_of_nat 44) p0 = false -> List.Forall (fun p => has_char (Ascii.ascii_of_nat 44) p = false) ps ->
  split_go (Ascii.ascii_of_nat 44) (String.concat ", " (p0 :: ps)) cur =
  (cur +:+ p0) :: map (fun p => String (Ascii.ascii_of_nat 32) p) ps.
Proof.
  revert p0 cur; induction ps as [|p1 ps IH]; intros p0 cur H0 Hps.
  - simpl. rewrite <- (sapp_nil_r p0) at 1. rewrite split_nosep by exact H0. reflexivity.
  - inversion Hps as [|? ? H1 Hps']; subst.
    change (String.concat ", " (p0 :: p1 :: ps)) with (p0 +:+ ", " +:+ String.concat ", " (p1 :: ps)).
    rewrite split_nosep by exact H0.
    set (X := String.concat ", " (p1 :: ps)).
    rewrite !sapp_cons, sapp_nil_l. simpl. unfold X.
    rewrite IH by assumption. reflexivity.
Qed.

Lemma strip_id (s : string) (c1 c2 : Ascii.ascii) (l1 l2 : list Ascii.ascii) :
  String.list_ascii_of_string s = c1 :: l1 -> String.list_ascii_of_string s = l2 ++ [c2] ->
  is_space c1 = false -> is_space c2 = false -> strip s = s.
Proof.
  intros H1 H2 Hc1 Hc2. unfold strip.
  assert (E : lstrip (String.list_ascii_of_string s) = String.list_ascii_of_string s)
    by (rewrite H1; simpl; rewrite Hc1; reflexivity).
  rewrite E, H2, rev_unit.
  replace (lstrip (c2 :: rev l2)) with (c2 :: rev l2) by (simpl; rewrite Hc2; reflexivity).
  rewrite <- rev_unit, rev_involutive, <- H2. apply String.string_of_list_ascii_of_string.
Qed.

Lemma link_part_last (u rel : string) :
  exists l, String.list_ascii_of_string (link_part u rel) = l ++ [Ascii.ascii_of_nat 34].
Proof.
  exists (String.list_ascii_of_string ("<" +:+ u +:+ ">; rel=" +:+ chr 34 +:+ rel)).
  assert (E : link_part u rel = ("<" +:+ u +:+ ">; rel=" +:+ chr 34 +:+ rel) +:+ chr 34)
    by (unfold link_part; rewrite !sapp_assoc; reflexivity).
  rewrite E, list_ascii_app. reflexivity.
Qed.

Lemma strip_link_part (u rel : string) : strip (link_part u rel) = link_part u rel.
Proof.
  destruct (link_part_last u rel) as [l Hl].
  apply (strip_id _ (Ascii.ascii_of_nat 60) (Ascii.ascii_of_nat 34) (String.list_ascii_of_string
           (u +:+ ">; rel=" +:+ chr 34 +:+ rel +:+ chr 34)) l); [reflexivity|exact Hl|reflexivity|reflexivity].
Qed.

Lemma strip_space (s : string) : strip (String (Ascii.ascii_of_nat 32) s) = strip s.
Proof. reflexivity. Qed.

Lemma has_comma_link_part (u rel : string) :
  has_char (Ascii.ascii_of_nat 44) u = false -> has_char (Ascii.ascii_of_nat 44) rel = false ->
  has_char (Ascii.ascii_of_nat 44) (link_part u rel) = false.
Proof.
  intros Hu Hr. unfold link_part. rewrite !has_char_app, Hu, Hr. reflexivity.
Qed.

Lemma find_map' {X Y} (f : Y -> bool) (g : X -> Y) (l : list X) :
  List.find f (map g l) = option_map g (List.find (fun x => f (g x)) l).
Proof. induction l as [|x t IH]; simpl; [reflexivity|]. destruct (f (g x)); [reflexivity|exact IH]. Qed.

Lemma find_char_app (c : Ascii.ascii) (s t : string) :
  has_char c s = false -> find_char c (s +:+ String c t) = Z.of_nat (String.length s).
Proof.
  induction s as [|x s IH]; intros H; simpl.
  - rewrite Ascii.eqb_refl. reflexivity.
  - unfold has_char in H. simpl in H. apply orb_false_iff in H. destruct H as [Hx Hs].
    rewrite Hx, IH by exact Hs.
    destruct (Z.ltb_spec (Z.of_nat (String.length s)) 0); [lia|]. lia.
Qed.

Lemma substring_app (s t : string) : String.substring 0 (String.length s) (s +:+ t) = s.
Proof. induction s as [|x s IH]; simpl; [destruct t; reflexivity|rewrite IH; reflexivity]. Qed.

Lemma length_sapp (s t : string) : String.length (s +:+ t) = (String.length s + String.length t)%nat.
Proof. induction s as [|x s IH]; simpl; [reflexivity|rewrite IH; reflexivity]. Qed.

Lemma slice_link_part (u rel : string) :
  has_char (Ascii.ascii_of_nat 62) u = false ->
  py_slice (link_part u rel) (find_char (Ascii.ascii_of_nat 60) (link_part u rel) + 1)
    (find_char (Ascii.ascii_of_nat 62) (link_part u rel)) = u.
Proof.
  intros Hu.
  assert (E1 : find_char (Ascii.ascii_of_nat 60) (link_part u rel) = 0%Z) by reflexivity.
  assert (E2 : find_char (Ascii.ascii_of_nat 62) (link_part u rel) = Z.of_nat (S (String.length u))).
  { unfold link_part. rewrite sapp_cons, sapp_nil_l. simpl.
    change (">; rel=" +:+ chr 34 +:+ rel +:+ chr 34)
      with (String (Ascii.ascii_of_nat 62) ("; rel=" +:+ chr 34 +:+ rel +:+ chr 34)).
    rewrite find_char_app by exact Hu.
    destruct (Z.ltb_spec (Z.of_nat (String.length u)) 0); lia. }
  rewrite E1, E2. unfold py_slice.
  set (rest := ">; rel=" +:+ chr 34 +:+ rel +:+ chr 34).
  assert (Hlen : String.length (link_part u rel) = S (String.length u + String.length rest)).
  { unfold link_part, rest. rewrite sapp_cons, sapp_nil_l. cbn [String.length].
    rewrite length_sapp. reflexivity. }
  rewrite Hlen.
  destruct (Z.ltb_spec (0 + 1) 0); [lia|].
  destruct (Z.ltb_spec (Z.of_nat (S (String.length u))) 0); [lia|].
  rewrite (Z.min_l (0 + 1)) by lia.
  rewrite (Z.min_l (Z.of_nat (S (String.length u)))) by lia.
  destruct (Z.leb_spec (Z.of_nat (S (String.length u))) (0 + 1)) as [Hle|Hgt].
  - destruct u; simpl in Hle; [reflexivity|lia].
  - replace (Z.to_nat (0 + 1)) with 1%nat by reflexivity.
    replace (Z.to_nat (Z.of_nat (S (String.length u)) - (0 + 1))) with (String.length u) by lia.
    unfold link_part. rewrite sapp_cons, sapp_nil_l. exact (substring_app u _).
Qed.

(** X11: on a Link header made of entries [<u>; rel="r"] joined by ", ",
    where no url or rel contains a comma and no url contains ">",
    [extract_next_link] returns the url of the first entry whose text
    contains rel="next", and None when there is none (in particular on an
    empty header). *)
Theorem extract_next_link_header (ps : list (string * string)) :
  List.Forall (fun p => has_char (Ascii.ascii_of_nat 44) p.1 = false /\ has_char (Ascii.ascii_of_nat 62) p.1 = false /\
                        has_char (Ascii.ascii_of_nat 44) p.2 = false) ps ->
  extract_next_link (Some (link_header ps)) =
  option_map fst (List.find (fun p => contains rel_next (link_part p.1 p.2)) ps).
Proof.
  intros Hps. destruct ps as [|p0 ps]; [reflexivity|].
  unfold extract_next_link, link_header.
  replace (String.eqb (String.concat ", " (map (fun p => link_part p.1 p.2) (p0 :: ps))) "") with false
    by (destruct ps; reflexivity).
  assert (Hc : List.Forall (fun p => has_char (Ascii.ascii_of_nat 44) p = false)
                 (map (fun p => link_part p.1 p.2) ps)).
  { inversion Hps as [|? ? _ Hps']; subst. apply Forall_map.
    eapply List.Forall_impl; [|exact Hps'].
    intros p [Ha [_ Hb]]. apply has_comma_link_part; assumption. }
  inversion Hps as [|? ? [H0a [H0b H0c]] Hps']; subst.
  cbn [map]. rewrite split_concat; [|apply has_comma_link_part; assumption|exact Hc].
  cbn [map]. rewrite ?sapp_nil_l. rewrite strip_link_part.
  assert (Hm : map strip (map (fun p : string => String (Ascii.ascii_of_nat 32) p) (map (fun p : string * string => link_part p.1 p.2) ps))
              = map (fun p : string * string => link_part p.1 p.2) ps).
  { rewrite !List.map_map. apply List.map_ext. intros p. rewrite strip_space. apply strip_link_part. }
  rewrite Hm.
  change (link_part p0.1 p0.2 :: map (fun p => link_part p.1 p.2) ps)
    with (map (fun p => link_part p.1 p.2) (p0 :: ps)).
  rewrite find_map'.
  destruct (List.find (fun x => contains rel_next (link_part x.1 x.2)) (p0 :: ps)) as [p|] eqn:Ef;
    simpl; [|reflexivity].
  apply List.find_some in Ef. destruct Ef as [Hin _].
  apply List.Forall_forall with (x := p) in Hps; [|exact Hin].
  f_equal. apply slice_link_part. apply Hps.
Qed.


End LinkProofs.

Module LinkWitness.
Import Puller LinkSpec LinkProofs.

Lemma extract_next_link_header_witness :
  extract_next_link (Some (link_header [("https://s/orders.json?page_info=a", "previous");
                                        ("https://s/orders.json?page_info=c", "next")])) =
  Some "https://s/orders.json?page_info=c".
Proof.
  rewrite (extract_next_link_header [("https://s/orders.json?page_info=a", "previous");
                                   ("https://s/orders.json?page_info=c", "next")]).
  - reflexivity.
  - repeat constructor.
Defined.

End LinkWitness.


Module PipelineProofs.
Import CleanerIO PullerIO.

Section Pipeline.
Context `{L : PyLib}.

(** X12: running save_outputs and then the Normalizer's main with STORE
    and TOKEN set and the output folder available (save_outputs itself
    needs it: the same get_output_dir), when json.load reads back what
    json.dump wrote, cleans
    exactly the pulled orders: the freshly written output/raw_orders.json is
    the file read (a raw_orders.json in the working directory is ignored),
    the outcome is that of [clean] on the orders, and raw_orders.json is
    kept.  raw_orders.csv is present afterwards exactly when the orders are
    non-empty or a CSV from an earlier run was already there (an empty pull
    does not remove a stale CSV). *)
Theorem save_then_clean (json_dump : list (list (string * json)) -> string)
    (json_load : string -> option (list (list (string * json))))
    (normalize_csv : list (list (string * json)) -> string) (to_csv : list FlatRow -> string)
    (env : Env) (tz_name : string) (orders : list (list (string * json))) (fs : gmap path string) :
  store_set env && token_set env = true ->
  outdir_ok env = true ->
  json_load (json_dump orders) = Some orders ->
  let fs1 := save_outputs json_dump normalize_csv (output_dir env) orders fs in
  CleanerIO.main json_load to_csv env tz_name fs1 =
    match clean orders tz_name with
    | Some rows => (<[clean_csv_path env := to_csv rows]> fs1, inr (length rows))
    | None => (fs1, inl CleanError)
    end /\
  fs1 !! ((output_dir env, "raw_orders.json") : path) = Some (json_dump orders) /\
  (is_Some (fs1 !! (output_dir env, "raw_orders.csv")) <->
   orders <> [] \/ is_Some (fs !! (output_dir env, "raw_orders.csv"))).
Proof.
  intros Hst Hok Hrt fs1.
  assert (Hj : fs1 !! ((output_dir env, "raw_orders.json") : path) = Some (json_dump orders)).
  { unfold fs1, save_outputs. destruct orders as [|o os].
    - apply lookup_insert_eq.
    - rewrite lookup_insert_ne by congruence. apply lookup_insert_eq. }
  split; [|split; [exact Hj|]].
  - assert (Hr : raw_path env fs1 = (output_dir env, "raw_orders.json")).
    { unfold raw_path. destruct (fs1 !! _) eqn:E; [reflexivity|].
      change (fs1 !! ((output_dir env, "raw_orders.json") : path) = None) in E. congruence. }
    unfold CleanerIO.main. rewrite Hst, Hok, Hr. rewrite Hj, Hrt. reflexivity.
  - unfold fs1, save_outputs. destruct orders as [|o os].
    + rewrite lookup_insert_ne by congruence. split; [intros H; right; exact H|].
      intros [H|H]; [congruence|exact H].
    + rewrite lookup_insert_eq. split; [intros _; left; discriminate|intros _; eexists; reflexivity].
Qed.

End Pipeline.
End PipelineProofs.

Module PipelineWitness.
Import CleanerIO PullerIO PipelineProofs.

Lemma save_then_clean_witness :
  (store_set {| output_dir := "out"; cwd := "."; store_set := true; token_set := true; outdir_ok := true |} &&
   token_set {| output_dir := "out"; cwd := "."; store_set := true; token_set := true; outdir_ok := true |} = true /\
   outdir_ok {| output_dir := "out"; cwd := "."; store_set := true; token_set := true; outdir_ok := true |} = true /\
   (fun _ : string => Some Inputs.orders_one_empty) ((fun _ => "[...]") Inputs.orders_one_empty)
     = Some Inputs.orders_one_empty) /\
  let fs1 := save_outputs (fun _ => "[...]") (fun _ => "id,...") "out" Inputs.orders_one_empty ∅ in
  CleanerIO.main (L:=demo_lib) (fun _ => Some Inputs.orders_one_empty) (fun _ => "csv")
    {| output_dir := "out"; cwd := "."; store_set := true; token_set := true; outdir_ok := true |} "UTC" fs1 =
    match clean (L:=demo_lib) Inputs.orders_one_empty "UTC" with
    | Some rows => (<[clean_csv_path {| output_dir := "out"; cwd := "."; store_set := true; token_set := true; outdir_ok := true |}
                       := "csv"]> fs1, inr (length rows))
    | None => (fs1, inl CleanError)
    end /\
  fs1 !! (("out", "raw_orders.json") : path) = Some "[...]" /\
  (is_Some (fs1 !! ("out", "raw_orders.csv")) <->
   Inputs.orders_one_empty <> [] \/ is_Some ((∅ : gmap path string) !! ("out", "raw_orders.csv"))).
Proof.
  split; [split; [reflexivity|split; reflexivity]|].
  exact (save_then_clean (L:=demo_lib) (fun _ => "[...]") (fun _ => Some Inputs.orders_one_empty)
           (fun _ => "id,...") (fun _ => "csv")
           {| output_dir := "out"; cwd := "."; store_set := true; token_set := true; outdir_ok := true |} "UTC"
           Inputs.orders_one_empty ∅ eq_refl eq_refl eq_refl).
Defined.

End PipelineWitness.

Module RunReportProofs.
Import RunReport RunReportSpec.

Lemma steps_run_all runner py base args log :
  steps runner py base args log = run_all runner (planned py base args) log.
Proof.
  unfold steps, planned, when.
  destruct (skip_pull args), (skip_clean args), (skip_report args); cbn [negb app run_all];
    unfold bind, ret, run; cbv beta iota;
    repeat (destruct (runner _) as [[|?|?]|]; cbv beta iota); reflexivity.
Qed.

Lemma run_all_outcome runner cmds log :
  let '(log', r) := run_all runner cmds log in
  (r = inr tt /\ log' = log ++ cmds /\ Forall (fun c => runner c = Some 0%Z) cmds) \/
  (exists pre c post, cmds = pre ++ c :: post /\ log' = log ++ pre ++ [c] /\
     Forall (fun c => runner c = Some 0%Z) pre /\
     ((exists k, runner c = Some k /\ k <> 0%Z /\ r = inl (CalledProcessError k)) \/
      (runner c = None /\ r = inl KeyboardInterrupt))).
Proof.
  revert log; induction cmds as [|c cs IH]; intros log.
  - left. simpl. rewrite app_nil_r. auto.
  - cbn [run_all]. unfold bind, run.
    destruct (runner c) as [[|k|k]|] eqn:Hc; cbv beta iota.
    + specialize (IH (log ++ [c])).
      destruct (run_all runner cs (log ++ [c])) as [log' r].
      destruct IH as [(Hr & Hl & Hf)|(pre & c' & post & Hcs & Hl & Hf & He)].
      * left. rewrite <- app_assoc in Hl. auto.
      * right. exists (c :: pre), c', post. rewrite <- app_assoc in Hl.
        subst cs. repeat split; auto.
    + right. exists [], c, cs. repeat split; auto. left. exists (Z.pos k). auto.
    + right. exists [], c, cs. repeat split; auto. left. exists (Z.neg k). auto.
    + right. exists [], c, cs. repeat split; auto.
Qed.

(** X13: run_report's main.  If one of the three scripts is missing it
    runs nothing, opens nothing and returns 1.  Otherwise either every
    non-skipped step (pull, clean, report, in this order) runs and exits
    with 0, and then: if get_output_dir() fails its exception escapes main
    and nothing is opened; else the report is opened iff --open was given
    and the file exists, and main returns 0, or 130 when the opened viewer
    is interrupted.  Or the steps run in order up to the first one that
    fails, which is the last one run, nothing is opened, and main returns
    that step's non-zero exit code, or 130 when it was interrupted. *)
Theorem main_outcome exists_ outdir_ok report_exists open_interrupted runner py base args :
  let '(ran, opened, code) :=
    main exists_ outdir_ok report_exists open_interrupted runner py base args in
  if scripts_present exists_ base then
    (ran = planned py base args /\ Forall (fun c => runner c = Some 0%Z) ran /\
     (outdir_ok = false -> opened = false /\ code = None) /\
     (outdir_ok = true -> opened = open_flag args && report_exists /\
        code = Some (if opened && open_interrupted then 130%Z else 0%Z))) \/
    (exists pre c post, planned py base args = pre ++ c :: post /\ ran = pre ++ [c] /\
       Forall (fun c => runner c = Some 0%Z) pre /\ opened = false /\
       ((exists k, runner c = Some k /\ k <> 0%Z /\ code = Some k) \/
        (runner c = None /\ code = Some 130%Z)))
  else ran = [] /\ opened = false /\ code = Some 1%Z.
Proof.
  unfold main, scripts_present.
  destruct (exists_ (script base "order_puller.py") && exists_ (script base "Cleaner.py")
            && exists_ (script base "Reporter.py")); cbn [negb]; [|auto].
  rewrite steps_run_all.
  pose proof (run_all_outcome runner (planned py base args) []) as H.
  destruct (run_all runner (planned py base args) []) as [log r].
  destruct H as [(-> & Hl & Hf)|(pre & c & post & Hp & Hl & Hf & [(k & Hk & Hk0 & ->)|(Hn & ->)])];
    simpl in Hl; subst log.
  - destruct outdir_ok; [destruct (open_flag args && report_exists)|]; cbn [negb];
      left; (split; [reflexivity|split; [exact Hf|]]);
      (split; [intros Hc; discriminate Hc|intros _]) || (split; [intros _|intros Hc; discriminate Hc]);
      auto.
  - right. exists pre, c, post. repeat split; auto. left. exists k. auto.
  - right. exists pre, c, post. auto 7.
Qed.

End RunReportProofs.

Module RequestProofs.
Import Puller.

Section R.
Context {A : Type} (py_int : string -> option Z).

Lemma fetch_loop_no_params (rs : list (Response A)) url acc sent :
  exists rest, (fetch_loop py_int rs url None acc sent).1 = sent ++ rest /\
               Forall (fun q => req_params q = None) rest.
Proof.
  revert url acc sent; induction rs as [|r rs IH]; intros url acc sent; cbn [fetch_loop].
  - exists []. rewrite app_nil_r. auto.
  - set (q := {| req_url := url; req_params := None |}).
    assert (Hq : forall rest, Forall (fun q => req_params q = None) rest ->
                 exists rest', (sent ++ [q]) ++ rest = sent ++ rest' /\
                               Forall (fun q => req_params q = None) rest').
    { intros rest Hr. exists (q :: rest). rewrite <- app_assoc. auto. }
    destruct (Z.eqb (status_code r) 429).
    + destruct (py_int _) as [z|]; [|(exists [q]; split; [reflexivity|repeat constructor])].
      destruct (z <? 0)%Z; [(exists [q]; split; [reflexivity|repeat constructor])|].
      destruct (IH url acc (sent ++ [q])) as (rest & -> & Hr). apply Hq, Hr.
    + destruct ((400 <=? status_code r)%Z && (status_code r <? 600)%Z);
        [(exists [q]; split; [reflexivity|repeat constructor])|].
      destruct (extract_next_link (link r)) as [u|]; [|(exists [q]; split; [reflexivity|repeat constructor])].
      destruct (String.eqb u ""); [(exists [q]; split; [reflexivity|repeat constructor])|].
      destruct (IH u (acc ++ default [] (orders_body r)) (sent ++ [q])) as (rest & -> & Hr).
      apply Hq, Hr.
Qed.

Lemma fetch_loop_params (rs : list (Response A)) url p acc sent :
  exists n rest, (fetch_loop py_int rs url (Some p) acc sent).1 =
                   sent ++ repeat {| req_url := url; req_params := Some p |} n ++ rest /\
                 Forall (fun q => req_params q = None) rest /\
                 (rs <> [] -> (1 <= n)%nat).
Proof.
  revert acc sent; induction rs as [|r rs IH]; intros acc sent; cbn [fetch_loop].
  - exists 0%nat, []. rewrite !app_nil_r. split; [reflexivity|split; [constructor|]].
    intros H; congruence.
  - set (q := {| req_url := url; req_params := Some p |}).
    assert (Hone : exists n rest, sent ++ [q] = sent ++ repeat q n ++ rest /\
                     Forall (fun q => req_params q = None) rest /\ (r :: rs <> [] -> (1 <= n)%nat)).
    { exists 1%nat, []. rewrite app_nil_r. split; [reflexivity|split; [constructor|auto]]. }
    destruct (Z.eqb (status_code r) 429).
    + destruct (py_int _) as [z|]; [|cbn [fst]; exact Hone].
      destruct (z <? 0)%Z; [cbn [fst]; exact Hone|].
      destruct (IH acc (sent ++ [q])) as (n & rest & -> & Hr & _).
      exists (S n), rest. rewrite <- app_assoc. auto with arith.
    + destruct ((400 <=? status_code r)%Z && (status_code r <? 600)%Z); [exact Hone|].
      destruct (extract_next_link (link r)) as [u|]; [|cbn [fst]; exact Hone].
      destruct (String.eqb u ""); [exact Hone|].
      destruct (fetch_loop_no_params rs u (acc ++ default [] (orders_body r)) (sent ++ [q]))
        as (rest & -> & Hr).
      exists 1%nat, rest. rewrite <- app_assoc. auto.
Qed.

(** X14: the requests fetch_orders sends are some repetitions (at least
    one when the server answers at all) of the request to the base orders
    URL with the query parameters limit=250, created_at_min and
    status=any, followed only by requests without query parameters (the
    next-page links). *)
Theorem fetch_orders_requests (store ver since : string) (rs : list (Response A)) :
  exists n rest,
    (fetch_orders py_int store ver since rs).1 =
      repeat {| req_url := base_url store ver; req_params := Some (first_params since) |} n ++ rest /\
    Forall (fun q => req_params q = None) rest /\
    (rs <> [] -> (1 <= n)%nat).
Proof. exact (fetch_loop_params rs _ _ [] []). Qed.

End R.
End RequestProofs.

Module CleanerFootprint.
Import CleanerIO.

(** X15: the Normalizer's main changes no file other than
    output/clean_orders.csv.  It fails with AssertionError exactly when
    STORE or TOKEN is unset, with the OSError of get_output_dir() exactly
    when they are set and the output folder cannot be created, and with
    FileNotFoundError exactly when they are set, the folder is available
    and raw_orders.json exists neither in the output folder nor in the
    working directory. *)
Theorem cleaner_main_footprint `{L : PyLib}
    (json_load : string -> option (list (list (string * json))))
    (to_csv : list FlatRow -> string) (env : Env) (tz_name : string) (fs : gmap path string) :
  let '(fs', r) := main json_load to_csv env tz_name fs in
  (forall p, p <> clean_csv_path env -> fs' !! p = fs !! p) /\
  (r = inl AssertionError <-> store_set env && token_set env = false) /\
  (r = inl OSError <-> store_set env && token_set env = true /\ outdir_ok env = false) /\
  (r = inl FileNotFound <->
     store_set env && token_set env = true /\ outdir_ok env = true /\
     fs !! ((output_dir env, "raw_orders.json") : path) = None /\
     fs !! ((cwd env, "raw_orders.json") : path) = None).
Proof.
  unfold main, raw_path.
  destruct (store_set env && token_set env) eqn:Ea; cbn [negb].
  2:{ split; [auto|]. split; [split; auto|].
      split; split; try discriminate; intros [H _]; discriminate. }
  destruct (outdir_ok env) eqn:Eo; cbn [negb].
  2:{ split; [auto|]. split; [split; discriminate|].
      split; [split; auto|]. split; [discriminate|intros (_ & H & _); discriminate]. }
  destruct (fs !! (output_dir env, "raw_orders.json")) as [t0|] eqn:Eout.
  - change (fs !! ((output_dir env, "raw_orders.json") : path) = Some t0) in Eout. rewrite Eout.
    destruct (json_load t0) as [orders|]; [destruct (clean orders tz_name) as [rows|]|].
    + split; [intros p Hp; apply lookup_insert_ne; congruence|].
      split; [split; discriminate|]. split; [split; [discriminate|intros (_ & H); discriminate]|].
      split; [discriminate|intros (_ & _ & H & _); congruence].
    + split; [auto|]. split; [split; discriminate|]. split; [split; [discriminate|intros (_ & H); discriminate]|].
      split; [discriminate|intros (_ & _ & H & _); congruence].
    + split; [auto|]. split; [split; discriminate|]. split; [split; [discriminate|intros (_ & H); discriminate]|].
      split; [discriminate|intros (_ & _ & H & _); congruence].
  - destruct (fs !! ((cwd env, "raw_orders.json") : path)) as [t0|] eqn:Ec.
    + destruct (json_load t0) as [orders|]; [destruct (clean orders tz_name) as [rows|]|].
      * split; [intros p Hp; apply lookup_insert_ne; congruence|].
        split; [split; discriminate|]. split; [split; [discriminate|intros (_ & H); discriminate]|].
        split; [discriminate|intros (_ & _ & _ & H); congruence].
      * split; [auto|]. split; [split; discriminate|]. split; [split; [discriminate|intros (_ & H); discriminate]|].
        split; [discriminate|intros (_ & _ & _ & H); congruence].
      * split; [auto|]. split; [split; discriminate|]. split; [split; [discriminate|intros (_ & H); discriminate]|].
        split; [discriminate|intros (_ & _ & _ & H); congruence].
    + split; [auto|]. split; [split; discriminate|].
      split; [split; [discriminate|intros (_ & H); discriminate]|].
      split; [auto|intros _; reflexivity].
Qed.

End CleanerFootprint.

Module ProductGroupProofs.
Import SortLemmas RepeatSpec RepeatLemmas ProductLemmas DailyProofs.

Section S.
Context `{L : PyLib}.

Local Abbreviation same_key a b := (key_eqb a.1 b.1 && key_eqb a.2 b.2).

Lemma same_key_sym (a b : pykey * pykey) : same_key a b = same_key b a.
Proof. rewrite (key_eqb_sym a.1), (key_eqb_sym a.2). reflexivity. Qed.

Lemma key_eqb_refl (a : pykey) : key_eqb a a = true.
Proof. destruct a; simpl; [apply Qeq_bool_refl|apply String.eqb_refl]. Qed.

Lemma pgroup_insert_perm k r gs :
  Permutation (concat (map snd (pgroup_insert k r gs))) (concat (map snd gs) ++ [r]).
Proof.
  induction gs as [|[k' rs] t IH]; simpl; [reflexivity|].
  destruct (key_eqb k'.1 k.1 && key_eqb k'.2 k.2); simpl.
  - rewrite <- !app_assoc. apply Permutation_app_head. apply Permutation_app_comm.
  - rewrite <- app_assoc. apply Permutation_app_head. exact IH.
Qed.

Lemma pgroup_insert_keys k r gs :
  map fst (pgroup_insert k r gs) =
  if existsb (fun k' => same_key k' k) (map fst gs) then map fst gs else map fst gs ++ [k].
Proof.
  induction gs as [|[k' rs] t IH]; simpl; [reflexivity|].
  destruct (key_eqb k'.1 k.1 && key_eqb k'.2 k.2); simpl; [reflexivity|].
  rewrite IH. destruct (existsb _ _); reflexivity.
Qed.

Lemma pgroup_insert_members k r gs :
  product_key r = Some k ->
  Forall (fun g => Forall (fun x => exists k', product_key x = Some k' /\ same_key g.1 k' = true) g.2) gs ->
  Forall (fun g => Forall (fun x => exists k', product_key x = Some k' /\ same_key g.1 k' = true) g.2)
    (pgroup_insert k r gs).
Proof.
  intros Hk. induction gs as [|[k' rs] t IH]; intros H; simpl.
  - repeat constructor. exists k. split; [exact Hk|]. simpl. rewrite !key_eqb_refl. reflexivity.
  - inversion H as [|? ? Hh Ht]; subst.
    destruct (key_eqb k'.1 k.1 && key_eqb k'.2 k.2) eqn:E; constructor; simpl in *; auto.
    apply Forall_app. split; [exact Hh|]. repeat constructor. exists k. auto.
Qed.

Lemma fold_product_perm (df : list FlatRow) acc :
  Permutation (concat (map snd (fold_left product_step df acc)))
    (concat (map snd acc) ++ List.filter (fun r => match product_key r with Some _ => true | None => false end) df).
Proof.
  revert acc. induction df as [|r t IH]; intros acc; simpl; [rewrite app_nil_r; reflexivity|].
  rewrite IH. unfold product_step. destruct (product_key r) as [k|]; simpl; [|reflexivity].
  rewrite pgroup_insert_perm, <- app_assoc. reflexivity.
Qed.

Lemma fold_product_distinct (df : list FlatRow) acc :
  ForallOrdPairs (fun a b => same_key a b = false) (map fst acc) ->
  ForallOrdPairs (fun a b => same_key a b = false) (map fst (fold_left product_step df acc)).
Proof.
  revert acc. induction df as [|r t IH]; intros acc H; simpl; [exact H|].
  apply IH. unfold product_step. destruct (product_key r) as [k|]; [|exact H].
  rewrite pgroup_insert_keys. destruct (existsb _ _) eqn:E; [exact H|].
  apply FOP_app_one; [exact H|]. apply existsb_false_Forall, E.
Qed.

Lemma fold_product_members_key (df : list FlatRow) acc :
  Forall (fun g => Forall (fun x => exists k', product_key x = Some k' /\ same_key g.1 k' = true) g.2) acc ->
  Forall (fun g => Forall (fun x => exists k', product_key x = Some k' /\ same_key g.1 k' = true) g.2)
    (fold_left product_step df acc).
Proof.
  revert acc. induction df as [|r t IH]; intros acc H; simpl; [exact H|].
  apply IH. unfold product_step. destruct (product_key r) as [k|] eqn:Ek; [|exact H].
  apply pgroup_insert_members; assumption.
Qed.

Lemma perm_concat_snd {B} (l l' : list ((pykey * pykey) * list B)) :
  Permutation l l' -> Permutation (concat (map snd l)) (concat (map snd l')).
Proof.
  induction 1 as [|x l l' _ IH|x y l|l l' l'' _ IH1 _ IH2]; simpl.
  - reflexivity.
  - apply Permutation_app_head. exact IH.
  - rewrite !app_assoc. apply Permutation_app_tail. apply Permutation_app_comm.
  - etransitivity; eassumption.
Qed.

(** X16: groupby(["sku", "title"]) as Reporter uses it partitions the
    rows whose sku and title are both non-null: the groups together hold
    exactly those rows, no two groups have equal keys, and every row of a
    group has that group's key. *)
Theorem group_by_product_partition (df : list FlatRow) :
  Permutation (concat (map snd (group_by_product df)))
    (List.filter (fun r => match product_key r with Some _ => true | None => false end) df) /\
  ForallOrdPairs (fun a b => (key_eqb a.1 b.1 && key_eqb a.2 b.2) = false)
    (map fst (group_by_product df)) /\
  Forall (fun g => Forall (fun r => exists k, product_key r = Some k /\
                                     key_eqb g.1.1 k.1 && key_eqb g.1.2 k.2 = true) g.2)
    (group_by_product df).
Proof.
  rewrite group_by_product_fold.
  pose proof (sort_stable_perm (fun a b : (pykey * pykey) * list FlatRow => pkey_lt a.1 b.1)
                (fold_left product_step df [])) as Hp.
  split; [|split].
  - rewrite (perm_concat_snd _ _ Hp).
    rewrite fold_product_perm. reflexivity.
  - apply (FOP_perm _ (fun a b H => eq_trans (same_key_sym b a) H) (map fst (fold_left product_step df []))).
    + apply Permutation_map. symmetry. exact Hp.
    + apply fold_product_distinct. constructor.
  - apply (Forall_perm _ _ _ Hp). apply fold_product_members_key. constructor.
Qed.

End S.
End ProductGroupProofs.
